(** * Hierarchical partition keys: loader and query programs

    A shallow embedding of the two Go programs of the repository:

    - [load/main.go]: [generateUserSession], [loadSampleData] and
      [ensureDatabaseAndContainer];
    - the query program: [queryWithFullPartitionKey],
      [queryWithTenantAndUserID], [queryWithSinglePKParameter] and
      [executePointRead] (its shorter copy has the first two, with the same
      keys and the same loops).

    The Cosmos DB store, [encoding/json], [math/rand], [uuid] and the clock
    are outside the repository.  Their answers are inputs of the model
    (section variables or explicit arguments); every request the programs
    send to the store, every line they print and every [log.Fatal] exit is
    recorded, in program order, in a trace.  The global [container] of the
    query program is an argument of its functions: an assigned container
    with the answers of the store behind it, or the nil pointer, which is
    what the program leaves in it. *)

From Stdlib Require Import ZArith List String Ascii Bool Lia DecimalString.
Import ListNotations.

Local Open Scope string_scope.
Local Open Scope list_scope.
Local Open Scope Z_scope.

(** String concatenation, Go's [+] on strings. *)
Infix "+++" := String.append (at level 60, right associativity).

(** ** Go values *)

(** Go's [int] on the 64 bit targets: additions wrap around. *)
Module GoInt.

Definition maxInt : Z := 2 ^ 63 - 1.
Definition minInt : Z := - 2 ^ 63.

Definition wrap (z : Z) : Z := (z + 2 ^ 63) mod 2 ^ 64 - 2 ^ 63.

Definition add (a b : Z) : Z := wrap (a + b).

(** [x++] *)
Definition incr (a : Z) : Z := add a 1.

(** [a % b] truncates toward zero. *)
Definition rem (a b : Z) : Z := Z.rem a b.

Definition inRange (z : Z) : Prop := minInt <= z <= maxInt.

(** [%d] *)
Definition itoa (z : Z) : string := NilZero.string_of_int (Z.to_int z).

End GoInt.

(** Go errors, as far as the programs look into them: an
    [*azcore.ResponseError] carries the HTTP status code, [fmt.Errorf] with
    [%w] wraps an error, and [errors.As] searches the chain of wrapped
    errors. *)
Inductive error : Type :=
| ResponseError (StatusCode : Z) (text : string)
| OtherError (text : string)
| Errorf (text : string) (wrapped : error).

(** [errors.As(err, &respErr)] with [respErr] an [*azcore.ResponseError]:
    the first response error of the chain. *)
Fixpoint errorsAsResponseError (err : error) : option Z :=
  match err with
  | ResponseError code _ => Some code
  | OtherError _ => None
  | Errorf _ inner => errorsAsResponseError inner
  end.

(** [err.Error()], which [%v] and [%w] print. *)
Fixpoint Error (err : error) : string :=
  match err with
  | ResponseError _ text => text
  | OtherError text => text
  | Errorf text inner => text +++ Error inner
  end.

(** ** Partition keys

    [azcosmos.PartitionKey] is a struct with one field, the slice of the
    key's values.  The programs build keys with [NewPartitionKey],
    [NewPartitionKeyString] and [AppendString] only; all three return a key
    and no error. *)
Record PartitionKey : Type := mkPartitionKey { values : list string }.

Definition NewPartitionKey : PartitionKey := mkPartitionKey [].

Definition NewPartitionKeyString (value : string) : PartitionKey :=
  mkPartitionKey [value].

Definition AppendString (pk : PartitionKey) (value : string) : PartitionKey :=
  mkPartitionKey (values pk ++ [value]).

(** What [fmt.Println] prints for a key (query program, "Querying with full
    partition key:"): the struct in braces, its slice in brackets, the
    values separated by one space. *)
Definition formatPartitionKey (pk : PartitionKey) : string :=
  "{[" +++ String.concat " " (values pk) +++ "]}".

(** The key of a document, as both programs build it: tenant, then user,
    then session. *)
Definition fullKey (tenantID userID sessionID : string) : PartitionKey :=
  AppendString (AppendString (NewPartitionKeyString tenantID) userID) sessionID.

(** ** Requests to the store and program traces *)

Record QueryParameter : Type := mkQueryParameter { Name : string; Value : string }.

Inductive StoreRequest : Type :=
| CreateDatabase (id : string)
| CreateContainer (id : string) (kind : string) (version : Z)
                  (paths : list string) (throughput : Z)
| UpsertItem (pk : PartitionKey) (item : string)
| ReadItem (pk : PartitionKey) (id : string)
| QueryItemsNextPage (query : string) (pk : PartitionKey)
                     (params : list QueryParameter).

Inductive Event : Type :=
| Stdout (text : string)
| LogLine (text : string)
| Store (req : StoreRequest).

(** The requests a trace sends to the store, in order. *)
Fixpoint storeRequests (tr : list Event) : list StoreRequest :=
  match tr with
  | [] => []
  | Store r :: tr' => r :: storeRequests tr'
  | _ :: tr' => storeRequests tr'
  end.

(** A run either returns or leaves the process through [log.Fatal]
    ([os.Exit(1)] after the message is logged). *)
Inductive Outcome (A : Type) : Type :=
| Returned (a : A)
| Exited (code : Z).
Arguments Returned {A} a.
Arguments Exited {A} code.

Definition Prog (A : Type) : Type := (list Event * Outcome A)%type.

Definition ret {A} (a : A) : Prog A := ([], Returned a).

Definition bind {A B} (m : Prog A) (k : A -> Prog B) : Prog B :=
  match m with
  | (tr, Returned a) => let (tr', o) := k a in (tr ++ tr', o)
  | (tr, Exited c) => (tr, Exited c)
  end.

Definition emit (e : Event) : Prog unit := ([e], Returned tt).

(** A line on standard output: [fmt.Println], or [fmt.Printf] with a format
    that ends the line. *)
Definition Println (text : string) : Prog unit := emit (Stdout text).

(** [log.Printf] *)
Definition logPrintf (text : string) : Prog unit := emit (LogLine text).

(** [log.Fatal], [log.Fatalf]: the message, then [os.Exit(1)]. *)
Definition logFatal {A} (text : string) : Prog A := ([LogLine text], Exited 1).

(** A call of the store client. *)
Definition send (r : StoreRequest) : Prog unit := emit (Store r).

Definition newline : string := String (ascii_of_nat 10) EmptyString.

Declare Scope prog_scope.
Delimit Scope prog_scope with prog.
Notation "x <- m ;; k" := (bind m (fun x => k))
  (at level 61, m at next level, right associativity) : prog_scope.
Notation "m ;; k" := (bind m (fun _ => k))
  (at level 61, right associativity) : prog_scope.
Local Open Scope prog_scope.

Definition trace {A} (p : Prog A) : list Event := fst p.
Definition outcome {A} (p : Prog A) : Outcome A := snd p.

(** ** Time

    An instant is a count of seconds since the Unix epoch and the
    nanoseconds within the second.  Every [time.Time] of the loader comes
    from [time.Now()] and so carries the process's local [*time.Location];
    the location is an argument of the operations that read it.  A location
    answers, for an instant, with the zone in force: its offset in seconds
    east of UTC and the interval of instants over which that zone lasts
    (what [Location.lookup] returns). *)
Record Time : Type := mkTime { unixSec : Z; nsec : Z }.

Record Zone : Type := mkZone { offset : Z; zoneStart : Z; zoneEnd : Z }.

Definition Location : Type := Z -> Zone.

(** [time.Duration], in nanoseconds. *)
Definition Second : Z := 1000000000.
Definition Minute : Z := 60 * Second.
Definition Hour : Z := 60 * Minute.

Definition unixNano (t : Time) : Z := unixSec t * Second + nsec t.

(** [t.Add(d)] *)
Definition Add (t : Time) (d : Z) : Time :=
  let n := unixNano t + d in mkTime (n / Second) (n mod Second).

(** The seconds count of the clock reading of [t] in [loc]: what [t.Date()]
    and [t.Clock()] are computed from. *)
Definition wallSeconds (loc : Location) (t : Time) : Z :=
  unixSec t + offset (loc (unixSec t)).

(** [time.Date] from a clock reading given as a seconds count: the zone in
    force at the reading taken as UTC is tried first and kept when the
    resulting instant lies in that zone's interval, otherwise the zone in
    force at the resulting instant is used. *)
Definition DateOfWall (loc : Location) (wall ns : Z) : Time :=
  let z := loc wall in
  if offset z =? 0 then mkTime wall ns
  else
    let utc := wall - offset z in
    let off := if (utc <? zoneStart z) || (utc >=? zoneEnd z)
               then offset (loc utc) else offset z in
    mkTime (wall - off) ns.

(** [t.AddDate(0, 0, days)]: same clock reading, [days] calendar days
    later, in the location of [t]. *)
Definition AddDateDays (loc : Location) (t : Time) (days : Z) : Time :=
  DateOfWall loc (wallSeconds loc t + days * 86400) (nsec t).

(** ** The loader: [load/main.go] *)

Record UserSession : Type := mkUserSession {
  ID : string;
  TenantID : string;
  UserID : string;
  SessionID : string;
  Activity : string;
  Timestamp : Time
}.

Record TenantType : Type := mkTenantType {
  name : string;
  userMin : Z;
  userMax : Z;
  sessions : Z
}.

Definition tenantTypes : list TenantType :=
  [ mkTenantType "Global-Corp" 2000 10000 100;
    mkTenantType "Enterprise-Corp" 1000 5000 50;
    mkTenantType "MidMarket-Inc" 100 500 20;
    mkTenantType "TechStartup-Co" 50 200 30;
    mkTenantType "LocalShops-SME" 10 50 5 ].

Definition activities : list string :=
  [ "login"; "logout"; "view_dashboard"; "create_document"; "edit_document";
    "delete_document"; "upload_file"; "download_file"; "send_message";
    "view_report"; "export_data"; "change_settings"; "invite_user";
    "join_meeting"; "schedule_event" ].

(** What one call of [generateUserSession] reads from outside the program:
    six values of the random source, two fresh UUID strings and the clock. *)
Record Draws : Type := mkDraws {
  rTenant : Z;
  rUser : Z;
  sessionUUID : string;
  rActivity : Z;
  now : Time;
  rDays : Z;
  rHours : Z;
  rMinutes : Z;
  idUUID : string
}.

(** [rand.Intn(n)] for [n > 0], as all its calls here are: a value of
    [0, n), any of them; the raw value of the source reduced modulo [n]. *)
Definition Intn (raw n : Z) : Z := raw mod n.

Definition len {A} (l : list A) : Z := Z.of_nat (List.length l).

(** [l[i]], for an index in range, as [Intn] makes it; [d] stands for the
    panic out of range. *)
Definition index {A} (l : list A) (i : Z) (d : A) : A := nth (Z.to_nat i) l d.

Definition generateUserSession (loc : Location) (r : Draws) : UserSession :=
  let tenant := index tenantTypes (Intn (rTenant r) (len tenantTypes))
                      (mkTenantType "" 0 0 0) in
  let userNum := Intn (rUser r) (userMax tenant - userMin tenant + 1)
                 + userMin tenant in
  let userID := "user-" +++ GoInt.itoa userNum in
  let sessionID := "session-" +++ substring 0 8 (sessionUUID r) in
  let activity := index activities (Intn (rActivity r) (len activities)) "" in
  let daysAgo := Intn (rDays r) 30 in
  let hoursAgo := Intn (rHours r) 24 in
  let minutesAgo := Intn (rMinutes r) 60 in
  let timestamp :=
    Add (Add (AddDateDays loc (now r) (- daysAgo)) (- hoursAgo * Hour))
        (- minutesAgo * Minute) in
  mkUserSession (idUUID r) (name tenant) userID sessionID activity timestamp.

Section Loader.

(** The local time zone, the inputs of the i-th call of the generator,
    [json.Marshal] on a session, and the store's answer to the upsert of
    the i-th iteration ([None]: no error). *)
Variable loc : Location.
Variable source : nat -> Draws.
Variable jsonMarshal : UserSession -> string + error.
Variable upsertResponse : nat -> PartitionKey -> string -> option error.

Definition nthSession (i : nat) : UserSession :=
  generateUserSession loc (source i).

(** One iteration of the loop of [loadSampleData], on the two counters. *)
Definition loadStep (rowCount : Z) (i : nat) (counts : Z * Z) : Prog (Z * Z) :=
  let '(successCount, errorCount) := counts in
  let session := nthSession i in
  match jsonMarshal session with
  | inr err =>
      logPrintf ("Failed to marshal session " +++ GoInt.itoa (Z.of_nat i + 1)
                 +++ ": " +++ Error err) ;;
      ret (successCount, GoInt.incr errorCount)
  | inl sessionJSON =>
      let partitionKey :=
        AppendString (AppendString (NewPartitionKeyString (TenantID session))
                                   (UserID session))
                     (SessionID session) in
      send (UpsertItem partitionKey sessionJSON) ;;
      match upsertResponse i partitionKey sessionJSON with
      | Some err =>
          logPrintf ("Failed to insert session " +++ GoInt.itoa (Z.of_nat i + 1)
                     +++ ": " +++ Error err) ;;
          ret (successCount, GoInt.incr errorCount)
      | None =>
          let successCount := GoInt.incr successCount in
          (if (GoInt.rem (Z.of_nat i + 1) 10 =? 0) || (Z.of_nat i + 1 =? rowCount)
           then Println (" Progress: " +++ GoInt.itoa (Z.of_nat i + 1) +++ "/"
                         +++ GoInt.itoa rowCount +++ " records processed")
           else ret tt) ;;
          ret (successCount, errorCount)
      end
  end.

(** [for i := range rowCount]: [todo] iterations from index [i]. *)
Fixpoint loadLoop (rowCount : Z) (todo : nat) (i : nat) (counts : Z * Z)
  : Prog (Z * Z) :=
  match todo with
  | O => ret counts
  | S todo' =>
      counts' <- loadStep rowCount i counts ;;
      loadLoop rowCount todo' (S i) counts'
  end.

(** The counters when the loop is left. *)
Definition loadCounts (rowCount : Z) : Prog (Z * Z) :=
  loadLoop rowCount (Z.to_nat rowCount) 0%nat (0, 0).

Definition loadSampleData (rowCount : Z) : Prog (option error) :=
  Println ("Generating " +++ GoInt.itoa rowCount +++ " sample records...") ;;
  counts <- loadCounts rowCount ;;
  let '(successCount, errorCount) := counts in
  Println (newline +++ "📊 Load Summary:") ;;
  Println (" Successful inserts: " +++ GoInt.itoa successCount) ;;
  if errorCount >? 0 then
    Println (" Failed inserts: " +++ GoInt.itoa errorCount) ;;
    ret (Some (OtherError ("completed with " +++ GoInt.itoa errorCount
                           +++ " errors out of " +++ GoInt.itoa rowCount
                           +++ " total records")))
  else ret None.

End Loader.

(** A [*azcosmos.ContainerClient]: the container it addresses. *)
Record ContainerClient : Type := mkContainerClient {
  clientDatabase : string;
  clientContainer : string
}.

Definition PartitionKeyKindMultiHash : string := "MultiHash".

Section Setup.

(** The store's answers to the two creation requests and the results of
    building the two client handles ([None]: no error). *)
Variable createDatabaseResponse : string -> option error.
Variable newDatabaseError : string -> option error.
Variable createContainerResponse : string -> string -> option error.
Variable newContainerError : string -> string -> option error.

(** [errors.As(err, &respErr) && respErr.StatusCode == 409] *)
Definition isConflict (err : error) : bool :=
  match errorsAsResponseError err with
  | Some code => code =? 409
  | None => false
  end.

(** The function is written here in three parts, last part first, as
    each [return nil, err] leaves the function early. *)

(** "get container client" to the end. *)
Definition getContainerClient (databaseName containerName : string)
  : Prog (ContainerClient + error) :=
  match newContainerError databaseName containerName with
  | Some err => ret (inr (Errorf "failed to create container client: " err))
  | None => ret (inl (mkContainerClient databaseName containerName))
  end.

(** "get database client" to the creation of the container. *)
Definition ensureContainer (databaseName containerName : string)
  : Prog (ContainerClient + error) :=
  match newDatabaseError databaseName with
  | Some err => ret (inr (Errorf "failed to create database client: " err))
  | None =>
      Println ("Checking if container " +++ containerName +++ " exists...") ;;
      send (CreateContainer containerName PartitionKeyKindMultiHash 2
              ["/tenantId"; "/userId"; "/sessionId"] 400) ;;
      match createContainerResponse databaseName containerName with
      | Some err =>
          if negb (isConflict err)
          then ret (inr (Errorf "failed to create container: " err))
          else
            Println ("Container " +++ containerName +++ " already exists") ;;
            getContainerClient databaseName containerName
      | None =>
          Println ("Created container " +++ containerName
                   +++ " with heirarchical partition keys:") ;;
          Println " Level 1:/ tenantId" ;;
          Println " Level 2:/ userId" ;;
          Println " Level 3:/ sessionId" ;;
          getContainerClient databaseName containerName
      end
  end.

Definition ensureDatabaseAndContainer (databaseName containerName : string)
  : Prog (ContainerClient + error) :=
  Println ("Checking if database " +++ databaseName +++ " exists ...") ;;
  send (CreateDatabase databaseName) ;;
  match createDatabaseResponse databaseName with
  | Some err =>
      if negb (isConflict err)
      then ret (inr (Errorf "failed to create database: " err))
      else
        Println ("Database " +++ databaseName +++ " alreadt exists") ;;
        ensureContainer databaseName containerName
  | None =>
      Println ("Created database " +++ databaseName) ;;
      ensureContainer databaseName containerName
  end.

End Setup.

(** ** The query program *)

Record QueryResult : Type := mkQueryResult {
  qID : string;
  qTenantId : string;
  qUserId : string;
  qSessionId : string;
  qActivity : string;
  qTimestamp : string
}.

(** One page of a query: the raw items and the request charge (a
    [float32] the program only prints; kept as its printed form). *)
Record QueryItemsResponse : Type := mkPage {
  Items : list string;
  RequestCharge : string
}.

(** The answers of the store to the successive [NextPage] calls of one
    pager.  The pager has more pages before its first call and, after a
    call, as long as the page came with a continuation token: [MorePages]. *)
Inductive Pages : Type :=
| LastPage (r : QueryItemsResponse + error)
| MorePages (r : QueryItemsResponse + error) (rest : Pages).

Record ItemResponse : Type := mkItemResponse {
  ItemValue : string;
  ItemCharge : string
}.

(** What a [*azcosmos.ContainerClient] that addresses a container gives
    access to: the answers of the store to queries and to point reads. *)
Record Container : Type := mkContainer {
  queryItems : string -> PartitionKey -> list QueryParameter -> Pages;
  readItem : PartitionKey -> string -> ItemResponse + error
}.

(** A method call through a nil [*azcosmos.ContainerClient]: the runtime
    panics on the nil pointer and the process ends with status 2; nothing
    has been printed or sent by the call. *)
Definition nilPanic {A} : Prog A := ([], Exited 2).

Section Query.

(** The value of the global [container] when a function runs ([None]: nil)
    and [json.Unmarshal] into a [QueryResult]. *)
Variable container : option Container.
Variable jsonUnmarshal : string -> QueryResult + error.

(** [for _, _item := range page.Items]: decode, then print. *)
Fixpoint forItems (show : QueryResult -> Prog unit) (items : list string)
  : Prog unit :=
  match items with
  | [] => ret tt
  | _item :: items' =>
      match jsonUnmarshal _item with
      | inr err => logFatal (Error err)
      | inl queryResult => show queryResult ;; forItems show items'
      end
  end.

(** [for pager.More() { page, err := pager.NextPage(ctx) ... }] *)
Fixpoint forPages (request : StoreRequest)
                  (body : QueryItemsResponse -> Prog unit) (pages : Pages)
  : Prog unit :=
  match pages with
  | LastPage r =>
      send request ;;
      match r with
      | inr err => logFatal (Error err)
      | inl page => body page
      end
  | MorePages r rest =>
      send request ;;
      match r with
      | inr err => logFatal (Error err)
      | inl page => body page ;; forPages request body rest
      end
  end.

(** [container.NewQueryItemsPager(query, pk, options)]: the pager, that is
    the request each [NextPage] sends and the answers it will get. *)
Definition NewQueryItemsPager (query : string) (pk : PartitionKey)
                              (params : list QueryParameter)
  : Prog (StoreRequest * Pages) :=
  match container with
  | None => nilPanic
  | Some c => ret (QueryItemsNextPage query pk params, queryItems c query pk params)
  end.

Definition queryWithFullPartitionKey (tenantID userID sessionID : string)
  : Prog unit :=
  let query := "SELECT * FROM c WHERE c.tenantId = @tenantId AND c.userId = @userId AND c.sessionId = @sessionId" in
  let pkFull :=
    AppendString (AppendString (NewPartitionKeyString tenantID) userID)
                 sessionID in
  pager <- NewQueryItemsPager query pkFull
             [ mkQueryParameter "@tenantId" tenantID;
               mkQueryParameter "@userId" userID;
               mkQueryParameter "@sessionId" sessionID ] ;;
  Println ("Querying with full partition key: " +++ formatPartitionKey pkFull) ;;
  forPages (fst pager)
    (fun page =>
       forItems
         (fun queryResult =>
            Println ("ID " +++ qID queryResult) ;;
            Println ("Activity " +++ qActivity queryResult) ;;
            Println ("Timestamp " +++ qTimestamp queryResult) ;;
            Println ("RUs consumed " +++ RequestCharge page))
         (Items page))
    (snd pager).

Definition separator : string := "==========================================".

Definition queryWithTenantAndUserID (tenantID userID : string) : Prog unit :=
  let query := "SELECT * FROM c WHERE c.tenantId = @tenantId AND c.userId = @userId" in
  let emptyPartitionKey := NewPartitionKey in
  pager <- NewQueryItemsPager query emptyPartitionKey
             [ mkQueryParameter "@tenantId" tenantID;
               mkQueryParameter "@userId" userID ] ;;
  forPages (fst pager)
    (fun page =>
       Println ("Results for tenantId: " +++ tenantID +++ " and userId: "
                +++ userID) ;;
       Println separator ;;
       forItems
         (fun queryResult =>
            Println ("Session ID: " +++ qSessionId queryResult) ;;
            Println ("Activity: " +++ qActivity queryResult) ;;
            Println ("Timestamp: " +++ qTimestamp queryResult) ;;
            Println ("RUs consumed: " +++ RequestCharge page) ;;
            Println separator)
         (Items page))
    (snd pager).

Definition queryWithSinglePKParameter (paramType paramValue : string)
  : Prog unit :=
  (if negb (paramType =? "tenantId")%string
      && negb (paramType =? "userId")%string
      && negb (paramType =? "sessionId")%string
   then logFatal ("Invalid parameter type: " +++ paramType)
   else ret tt) ;;
  let query := "SELECT * FROM c WHERE c." +++ paramType +++ " = @param" in
  let emptyPartitionKey := NewPartitionKey in
  pager <- NewQueryItemsPager query emptyPartitionKey
             [ mkQueryParameter "@param" paramValue ] ;;
  forPages (fst pager)
    (fun page =>
       Println ("Results for " +++ paramType +++ ": " +++ paramValue) ;;
       Println separator ;;
       forItems
         (fun queryResult =>
            Println ("ID: " +++ qID queryResult) ;;
            Println ("Tenant ID: " +++ qTenantId queryResult) ;;
            Println ("User ID: " +++ qUserId queryResult) ;;
            Println ("Session ID: " +++ qSessionId queryResult) ;;
            Println ("Activity: " +++ qActivity queryResult) ;;
            Println ("Timestamp: " +++ qTimestamp queryResult) ;;
            Println ("RUs consumed: " +++ RequestCharge page) ;;
            Println separator)
         (Items page))
    (snd pager).

Definition executePointRead (id tenantId userId sessionId : string)
  : Prog unit :=
  let pk := AppendString (AppendString (NewPartitionKeyString tenantId) userId)
                         sessionId in
  match container with
  | None => nilPanic
  | Some c =>
      send (ReadItem pk id) ;;
      match readItem c pk id with
      | inr err => logFatal ("Failed to read item: " +++ Error err)
      | inl resp =>
          match jsonUnmarshal (ItemValue resp) with
          | inr err => logFatal ("Failed to unmarshal response: " +++ Error err)
          | inl queryResult =>
              Println ("Point Read Result for: " +++ id +++ " " +++ tenantId
                       +++ " " +++ userId +++ " " +++ sessionId) ;;
              Println ("Activity: " +++ qActivity queryResult) ;;
              Println ("Timestamp: " +++ qTimestamp queryResult) ;;
              Println ("RUs consumed: " +++ ItemCharge resp)
          end
      end
  end.

End Query.

(** ** Vocabulary of the statements *)

Section LoaderSpec.

Variable loc : Location.
Variable source : nat -> Draws.
Variable jsonMarshal : UserSession -> string + error.
Variable upsertResponse : nat -> PartitionKey -> string -> option error.

(** The key made of a session's own three key fields. *)
Definition keyOfSession (s : UserSession) : PartitionKey :=
  mkPartitionKey [TenantID s; UserID s; SessionID s].

(** The i-th record fails: it does not encode, or the store refuses it. *)
Definition recordFails (i : nat) : bool :=
  let s := nthSession loc source i in
  match jsonMarshal s with
  | inr _ => true
  | inl doc =>
      match upsertResponse i (keyOfSession s) doc with
      | Some _ => true
      | None => false
      end
  end.

(** Number of failing records among [todo] records from index [i]. *)
Definition failuresFrom (i todo : nat) : Z :=
  len (filter recordFails (seq i todo)).

(** The upsert the loader owes to the i-th record: none if the record
    does not encode. *)
Definition upsertOf (i : nat) : list StoreRequest :=
  let s := nthSession loc source i in
  match jsonMarshal s with
  | inr _ => []
  | inl doc => [UpsertItem (keyOfSession s) doc]
  end.

End LoaderSpec.

(** The partition key a request is scoped to. *)
Definition keyScope (r : StoreRequest) : option PartitionKey :=
  match r with
  | UpsertItem pk _ => Some pk
  | ReadItem pk _ => Some pk
  | QueryItemsNextPage _ pk _ => Some pk
  | CreateDatabase _ => None
  | CreateContainer _ _ _ _ _ => None
  end.

Section QuerySpec.

Variable jsonUnmarshal : string -> QueryResult + error.

Definition decodes (raw : string) : bool :=
  match jsonUnmarshal raw with
  | inl _ => true
  | inr _ => false
  end.

(** The items of a page up to the first that does not decode, that one
    included. *)
Fixpoint upToUndecodable (items : list string) : list string :=
  match items with
  | [] => []
  | raw :: rest =>
      if decodes raw then raw :: upToUndecodable rest else [raw]
  end.

Definition cutPage (page : QueryItemsResponse) : QueryItemsResponse :=
  mkPage (upToUndecodable (Items page)) (RequestCharge page).

(** The answers of a pager up to the first failure, that one included:
    a page that the store answers with an error, or an item that does
    not decode.  Nothing follows the failure. *)
Fixpoint upToFailure (pages : Pages) : Pages :=
  match pages with
  | LastPage (inl page) => LastPage (inl (cutPage page))
  | LastPage (inr err) => LastPage (inr err)
  | MorePages (inl page) rest =>
      if forallb decodes (Items page)
      then MorePages (inl page) (upToFailure rest)
      else LastPage (inl (cutPage page))
  | MorePages (inr err) _ => LastPage (inr err)
  end.

(** The pager comes to an item that does not decode. *)
Fixpoint reachesUndecodable (pages : Pages) : bool :=
  match pages with
  | LastPage (inl page) => negb (forallb decodes (Items page))
  | LastPage (inr _) => false
  | MorePages (inl page) rest =>
      negb (forallb decodes (Items page)) || reachesUndecodable rest
  | MorePages (inr _) _ => false
  end.

(** A store cut after the first failure of each of its answers. *)
Definition cutStore (store : Container) : Container :=
  mkContainer
    (fun query pk params => upToFailure (queryItems store query pk params))
    (readItem store).

End QuerySpec.

(** An answer to a creation request that the setup accepts: no error, or
    an error in which [errors.As] finds a response with status 409. *)
Definition createdOrExists (r : option error) : Prop :=
  match r with
  | None => True
  | Some err => errorsAsResponseError err = Some 409
  end.

(** Any other answer: an error that is not a 409 response. *)
Definition creationFails (r : option error) (err : error) : Prop :=
  r = Some err /\ errorsAsResponseError err <> Some 409.

(** ** A concrete environment for the examples *)

(** A location without zone changes. *)
Definition utc : Location := fun _ => mkZone 0 (- 2 ^ 62) (2 ^ 62).

Definition sampleSource (i : nat) : Draws :=
  let n := Z.of_nat i in
  mkDraws n (7 * n + 3) "b08fa8a4-7aa5-4f5c-9a39-2b1f0c5d7e11" (n mod 5)
          (mkTime 1732986000 0) n (2 * n) (11 * n)
          ("c0ba6ff6-a622-4b30-bcd3-b9296033697" +++ GoInt.itoa (n mod 10)).

(** An encoder that refuses the sessions whose activity is "logout" and
    writes the fields of the others one after the other. *)
Definition sampleMarshal (s : UserSession) : string + error :=
  if (Activity s =? "logout")%string
  then inr (OtherError "json: unsupported value")
  else inl (ID s +++ "," +++ TenantID s +++ "," +++ UserID s +++ ","
            +++ SessionID s +++ "," +++ Activity s).

(** A store that accepts every upsert, and one that refuses the third. *)
Definition acceptAll : nat -> PartitionKey -> string -> option error :=
  fun _ _ _ => None.

Definition refuseThird : nat -> PartitionKey -> string -> option error :=
  fun i _ _ =>
    if Nat.eqb i 2 then Some (ResponseError 429 "429 Too Many Requests") else None.

(** America/New_York around 2024: standard time (UTC-5) until
    2024-03-10 07:00 UTC, daylight time (UTC-4) until 2024-11-03 06:00 UTC,
    standard time after. *)
Definition newYork : Location := fun t =>
  if t <? 1710054000 then mkZone (-18000) 1699164000 1710054000
  else if t <? 1730613600 then mkZone (-14400) 1710054000 1730613600
  else mkZone (-18000) 1730613600 1741503600.

(** A call of the generator on 2024-11-30 at 12:00 in New York
    (17:00 UTC) that draws 29 days, 23 hours and 59 minutes. *)
Definition lateNovember : Draws :=
  mkDraws 2 92 "5af6ab47-1c2d-4e3f-8a9b-0c1d2e3f4a5b" 0
          (mkTime 1732986000 0) 29 23 59
          "c0ba6ff6-a622-4b30-bcd3-b92960336976".

(** A call on 2024-04-08 at 12:00 in New York (16:00 UTC) with the same
    three draws. *)
Definition earlyApril : Draws :=
  mkDraws 2 92 "5af6ab47-1c2d-4e3f-8a9b-0c1d2e3f4a5b" 0
          (mkTime 1712592000 0) 29 23 59
          "c0ba6ff6-a622-4b30-bcd3-b92960336976".

(** A decoder that refuses the item "not json" and reads any other item
    as the id of a record. *)
Definition sampleUnmarshal (raw : string) : QueryResult + error :=
  if (raw =? "not json")%string
  then inr (OtherError "invalid character 'o' in literal null (expecting 'u')")
  else inl (mkQueryResult raw "Enterprise-Corp" "user-42" "session-0361ef4c"
                          "login" "2024-11-30T17:00:00Z").

(** A store that answers every query with one page of the given items
    and has no item to read. *)
Definition onePage (items : list string) : Container :=
  mkContainer (fun _ _ _ => LastPage (inl (mkPage items "2.83")))
              (fun _ _ => inr (ResponseError 404 "404 Not Found")).

(** A store that has every item asked for. *)
Definition oneItem : Container :=
  mkContainer (fun _ _ _ => LastPage (inl (mkPage [] "2.83")))
              (fun _ id => inl (mkItemResponse id "1.00")).

(** Two answers of the store to a creation request. *)
Definition alreadyExists : error := ResponseError 409 "409 Conflict".
Definition forbidden : error := ResponseError 403 "403 Forbidden".

(** ** The rest of the two programs *)

(** An [*azcosmos.Client]: the account it talks to. *)
Record Client : Type := mkClient { clientEndpoint : string }.

Record Config : Type := mkConfig {
  Endpoint : string;
  DatabaseName : string;
  ContainerName : string;
  RowCount : Z
}.

(** The command line of the loader after [flag.Parse()]: a flag that is
    not given has its default. *)
Record Flags : Type := mkFlags {
  rows : Z;
  endpointFlag : string;
  databaseFlag : string;
  containerFlag : string
}.

Definition defaultFlags : Flags := mkFlags 10 "" "sampleDB" "UserSessions".

Section Clients.

(** [azidentity.NewDefaultAzureCredential(nil)] and [azcosmos.NewClient] on
    an endpoint ([None]: no error). *)
Variable newCredentialError : option error.
Variable newClientError : string -> option error.

(** Loader: errors come back wrapped. *)
Definition createCosmosClient (endpoint : string) : Client + error :=
  match newCredentialError with
  | Some err => inr (Errorf "failed to create credential: " err)
  | None =>
      match newClientError endpoint with
      | Some err => inr (Errorf "failed to create client: " err)
      | None => inl (mkClient endpoint)
      end
  end.

(** Query program: errors come back as they are. *)
Definition getClient (endpoint : string) : Client + error :=
  match newCredentialError with
  | Some err => inr err
  | None =>
      match newClientError endpoint with
      | Some err => inr err
      | None => inl (mkClient endpoint)
      end
  end.

(** [init] of the query program; [getenv] is [os.Getenv], empty on a
    variable that is not set. *)
Definition init (getenv : string -> string) : Prog unit :=
  let endpoint := getenv "COSMOS_DB_ENDPOINT" in
  (if (endpoint =? "")%string
   then logFatal "COSMOS_DB_ENDPOINT is not set" else ret tt) ;;
  let dbName := getenv "COSMOS_DB_DATABASE_NAME" in
  (if (dbName =? "")%string
   then logFatal "COSMOS_DB_DATABASE_NAME is not set" else ret tt) ;;
  let containerName := getenv "COSMOS_DB_CONTAINER_NAME" in
  (if (containerName =? "")%string
   then logFatal "COSMOS_DB_CONTAINER_NAME is not set" else ret tt) ;;
  match getClient endpoint with
  | inr err => logFatal (Error err)
  | inl _ => ret tt
  end.

End Clients.

(** The global [container] of the query program: declared, and assigned
    nowhere ([init] throws the client away), so nil for the whole run. *)
Definition container : option Container := None.

(** [main] of the query program, after [init]. *)
Definition queryMain (getenv : string -> string)
                     (newCredentialError : option error)
                     (newClientError : string -> option error)
                     (jsonUnmarshal : string -> QueryResult + error)
  : Prog unit :=
  init newCredentialError newClientError getenv ;;
  let tenantID := "MidMarket-Inc" in
  let userID := "user-192" in
  let sessionID := "session-5af6ab47" in
  queryWithFullPartitionKey container jsonUnmarshal tenantID userID sessionID ;;
  let _tenantID := "LocalShops-SME" in
  let _userID := "user-42" in
  queryWithTenantAndUserID container jsonUnmarshal _tenantID _userID ;;
  queryWithSinglePKParameter container jsonUnmarshal "tenantId" "Enterprise-Corp" ;;
  queryWithSinglePKParameter container jsonUnmarshal "userId" "user-42" ;;
  queryWithSinglePKParameter container jsonUnmarshal "sessionId" "session-0361ef4c" ;;
  let tenantID_ := "SmallBiz-LLC" in
  let userID_ := "user-42" in
  let sessionID_ := "session-0361ef4c" in
  let id := "c0ba6ff6-a622-4b30-bcd3-b92960336976" in
  executePointRead container jsonUnmarshal id tenantID_ userID_ sessionID_.

(** [getEndpointFlagorEnv]: [flagValue] is the flag after [flag.Parse()].
    [log.Fatal] prints its operands one after the other; it does not read
    the first as a format. *)
Definition getEndpointFlagorEnv (flagValue : string) (getenv : string -> string)
                                (flagName envVar : string) : Prog string :=
  if negb (flagValue =? "")%string then ret flagValue
  else
    let envValue := getenv envVar in
    if negb (envValue =? "")%string then ret envValue
    else
      logFatal ("Missing required endpoint. Provide it via -%s flag or %s environment variable."
                +++ flagName +++ envVar).

Section LoaderMain.

Variable flags : Flags.
Variable getenv : string -> string.
Variable newCredentialError : option error.
Variable newClientError : string -> option error.
Variable createDatabaseResponse : string -> option error.
Variable newDatabaseError : string -> option error.
Variable createContainerResponse : string -> string -> option error.
Variable newContainerError : string -> string -> option error.
Variable loc : Location.
Variable source : nat -> Draws.
Variable jsonMarshal : UserSession -> string + error.
Variable upsertResponse : nat -> PartitionKey -> string -> option error.

(** "get endpoint from env if not provided via flag" *)
Definition endpointOf : Prog string :=
  let endpointURL := endpointFlag flags in
  if (endpointURL =? "")%string then
    let endpointURL := getenv "COSMOS_ENDPOINT" in
    if (endpointURL =? "")%string
    then logFatal "Please provide Azure Cosmos DB endpoint via -endpoint flag or COSMOS_ENDPOINT environment variable"
    else ret endpointURL
  else ret endpointURL.

(** [main] of the loader. *)
Definition loaderMain : Prog unit :=
  endpointURL <- endpointOf ;;
  let config := mkConfig endpointURL (databaseFlag flags) (containerFlag flags)
                         (rows flags) in
  Println "Starting data load with configuration:" ;;
  Println (" Endpoint: " +++ Endpoint config) ;;
  Println (" Database: " +++ DatabaseName config) ;;
  Println (" Container: " +++ ContainerName config) ;;
  Println (" Rows to generate: " +++ GoInt.itoa (RowCount config)) ;;
  Println "" ;;
  match createCosmosClient newCredentialError newClientError (Endpoint config) with
  | inr err => logFatal ("Failed to create Cosmos DB client: " +++ Error err)
  | inl client =>
      r <- ensureDatabaseAndContainer createDatabaseResponse newDatabaseError
             createContainerResponse newContainerError
             (DatabaseName config) (ContainerName config) ;;
      match r with
      | inr err =>
          logFatal ("Failed to ensure database and container exist: "
                    +++ Error err)
      | inl containerClient =>
          r' <- loadSampleData loc source jsonMarshal upsertResponse
                  (RowCount config) ;;
          match r' with
          | Some err => logFatal ("Failed to load sample data: " +++ Error err)
          | None =>
              Println ("Successfully loaded " +++ GoInt.itoa (RowCount config)
                       +++ " records into Azure Cosmos DB")
          end
      end
  end.

End LoaderMain.

(** ** More vocabulary *)

Definition isLogLine (e : Event) : bool :=
  match e with LogLine _ => true | _ => false end.

Definition isUpsert (r : StoreRequest) : bool :=
  match r with UpsertItem _ _ => true | _ => false end.

Definition isStdout (e : Event) : bool :=
  match e with Stdout _ => true | _ => false end.

(** The last line of a load without failure. *)
Definition isSuccessLine (e : Event) : bool :=
  match e with
  | Stdout text => String.prefix "Successfully loaded" text
  | _ => false
  end.

(** The command line and the environment of a run of the loader on the
    account of the examples. *)
Definition sampleFlags : Flags :=
  mkFlags 10 "https://account.documents.azure.com:443/" "sampleDB" "UserSessions".

Definition noEnv : string -> string := fun _ => "".

(** The number of pages of an answer. *)
Fixpoint pageCount (pages : Pages) : nat :=
  match pages with
  | LastPage _ => 1
  | MorePages _ rest => S (pageCount rest)
  end.

Section PagerSpec.

Variable jsonUnmarshal : string -> QueryResult + error.

(** The pager comes to a failure: a page answered with an error or an item
    that does not decode. *)
Fixpoint reachesFailure (pages : Pages) : bool :=
  match pages with
  | LastPage (inl page) => negb (forallb (decodes jsonUnmarshal) (Items page))
  | LastPage (inr _) => true
  | MorePages (inl page) rest =>
      negb (forallb (decodes jsonUnmarshal) (Items page)) || reachesFailure rest
  | MorePages (inr _) _ => true
  end.

End PagerSpec.

(** The text of the single-field query and the pagers of the three
    queries, as the queries build them. *)
Definition singleFieldQuery (paramType : string) : string :=
  "SELECT * FROM c WHERE c." +++ paramType +++ " = @param".

Definition fullKeyQuery : string :=
  "SELECT * FROM c WHERE c.tenantId = @tenantId AND c.userId = @userId AND c.sessionId = @sessionId".

Definition tenantUserQuery : string :=
  "SELECT * FROM c WHERE c.tenantId = @tenantId AND c.userId = @userId".

(** The tenant of a generated session, read off the catalogue. *)
Definition tenantOf (r : Draws) : TenantType :=
  index tenantTypes (Intn (rTenant r) (len tenantTypes)) (mkTenantType "" 0 0 0).

(** A location whose offset from UTC never changes. *)
Definition fixedOffset (loc : Location) (off : Z) : Prop :=
  forall t, offset (loc t) = off.

(** India: UTC+5:30 all year. *)
Definition kolkata : Location := fun _ => mkZone 19800 (- 2 ^ 62) (2 ^ 62).

(** A store whose first page is fine and whose second fails. *)
Definition secondPageFails : Container :=
  mkContainer
    (fun _ _ _ =>
       MorePages (inl (mkPage ["a"; "b"] "2.83"))
         (MorePages (inr (ResponseError 429 "429 Too Many Requests"))
            (LastPage (inl (mkPage ["c"] "2.83")))))
    (fun _ _ => inr (ResponseError 404 "404 Not Found")).

(** An environment in which the three variables of the query program are
    set. *)
Definition sampleEnv (name : string) : string :=
  if (name =? "COSMOS_DB_ENDPOINT")%string
  then "https://account.documents.azure.com:443/"
  else if (name =? "COSMOS_DB_DATABASE_NAME")%string then "sampleDB"
  else if (name =? "COSMOS_DB_CONTAINER_NAME")%string then "UserSessions"
  else "".

(** * Properties *)

(** ** Traces and outcomes *)

Lemma storeRequests_app tr1 tr2 :
  storeRequests (tr1 ++ tr2) = storeRequests tr1 ++ storeRequests tr2.
Proof.
  induction tr1 as [|e tr1 IH]; simpl; [reflexivity|].
  destruct e; simpl; rewrite IH; reflexivity.
Qed.

Lemma outcome_bind {A B} (m : Prog A) (k : A -> Prog B) :
  outcome (bind m k) =
  match outcome m with
  | Returned a => outcome (k a)
  | Exited c => Exited c
  end.
Proof.
  destruct m as [tr [a|c]]; unfold outcome; simpl; [|reflexivity].
  destruct (k a); reflexivity.
Qed.

Lemma trace_bind {A B} (m : Prog A) (k : A -> Prog B) :
  trace (bind m k) =
  trace m ++ match outcome m with
             | Returned a => trace (k a)
             | Exited _ => []
             end.
Proof.
  destruct m as [tr [a|c]]; unfold trace, outcome; simpl.
  - destruct (k a); reflexivity.
  - rewrite app_nil_r; reflexivity.
Qed.

Lemma bind_ret_l {A B} (a : A) (k : A -> Prog B) : bind (ret a) k = k a.
Proof. unfold bind, ret. destruct (k a); reflexivity. Qed.

Lemma prog_eta {A} (p : Prog A) : p = (trace p, outcome p).
Proof. destruct p; reflexivity. Qed.

Lemma outcome_ret {A} (a : A) : outcome (ret a) = Returned a.
Proof. reflexivity. Qed.

Lemma trace_ret {A} (a : A) : trace (ret a) = [].
Proof. reflexivity. Qed.

Lemma outcome_emit e : outcome (emit e) = Returned tt.
Proof. reflexivity. Qed.

Lemma trace_emit e : trace (emit e) = [e].
Proof. reflexivity. Qed.

Lemma outcome_logFatal {A} text : outcome (@logFatal A text) = Exited 1.
Proof. reflexivity. Qed.

Lemma trace_logFatal {A} text : trace (@logFatal A text) = [LogLine text].
Proof. reflexivity. Qed.

(** Rewriting a run into its trace and its outcome. *)
Ltac run :=
  repeat first
    [ rewrite outcome_bind | rewrite trace_bind
    | rewrite outcome_ret | rewrite trace_ret
    | rewrite outcome_logFatal | rewrite trace_logFatal
    | progress unfold Println, logPrintf, send
    | rewrite outcome_emit | rewrite trace_emit ].

(** ** Machine integers *)

Lemma wrap_inRange z : GoInt.inRange z -> GoInt.wrap z = z.
Proof.
  unfold GoInt.inRange, GoInt.wrap, GoInt.minInt, GoInt.maxInt. intros H.
  rewrite Z.mod_small; lia.
Qed.

Lemma incr_small z : 0 <= z < GoInt.maxInt -> GoInt.incr z = z + 1.
Proof.
  intros H. unfold GoInt.incr, GoInt.add. apply wrap_inRange.
  unfold GoInt.inRange, GoInt.minInt, GoInt.maxInt in *. lia.
Qed.

(** ** The loader *)

Section LoaderFacts.

Variable loc : Location.
Variable source : nat -> Draws.
Variable jsonMarshal : UserSession -> string + error.
Variable upsertResponse : nat -> PartitionKey -> string -> option error.

Local Abbreviation fails := (recordFails loc source jsonMarshal upsertResponse).
Local Abbreviation failures := (failuresFrom loc source jsonMarshal upsertResponse).
Local Abbreviation owed := (upsertOf loc source jsonMarshal).
Local Abbreviation step := (loadStep loc source jsonMarshal upsertResponse).
Local Abbreviation loop := (loadLoop loc source jsonMarshal upsertResponse).
Local Abbreviation counts := (loadCounts loc source jsonMarshal upsertResponse).
Local Abbreviation load := (loadSampleData loc source jsonMarshal upsertResponse).

Lemma fullKey_keyOfSession s :
  AppendString (AppendString (NewPartitionKeyString (TenantID s)) (UserID s))
               (SessionID s) = keyOfSession s.
Proof. reflexivity. Qed.

Lemma failuresFrom_bounds i todo : 0 <= failures i todo <= Z.of_nat todo.
Proof.
  unfold failuresFrom, len. split; [lia|].
  apply inj_le. etransitivity; [apply filter_length_le|].
  rewrite length_seq. apply le_n.
Qed.

Lemma failuresFrom_S i todo :
  failures i (S todo) =
  (if fails i then 1 else 0) + failures (S i) todo.
Proof.
  unfold failuresFrom, len. simpl seq. simpl filter.
  destruct (fails i); simpl List.length; lia.
Qed.

(** One iteration moves exactly one of the two counters. *)
Lemma loadStep_outcome rowCount i s e :
  outcome (step rowCount i (s, e)) =
  Returned (if fails i then (s, GoInt.incr e) else (GoInt.incr s, e)).
Proof.
  unfold loadStep, recordFails. rewrite fullKey_keyOfSession.
  destruct (jsonMarshal (nthSession loc source i)) as [doc|err].
  - run.
    destruct (upsertResponse i _ doc) as [err|]; run.
    + reflexivity.
    + destruct (_ || _); run; reflexivity.
  - run. reflexivity.
Qed.

Lemma loadStep_requests rowCount i c :
  storeRequests (trace (step rowCount i c)) = owed i.
Proof.
  destruct c as [s e].
  unfold loadStep, upsertOf. rewrite fullKey_keyOfSession.
  destruct (jsonMarshal (nthSession loc source i)) as [doc|err].
  - run.
    destruct (upsertResponse i _ doc) as [err|]; run.
    + reflexivity.
    + destruct (_ || _); run; reflexivity.
  - run. reflexivity.
Qed.

(** The loop invariant: after [todo] further iterations the failure
    counter has grown by the number of failing records and the success
    counter by the number of the others. *)
Lemma loadLoop_outcome rowCount todo : forall i s e,
  0 <= s -> 0 <= e -> s + e + Z.of_nat todo <= GoInt.maxInt ->
  outcome (loop rowCount todo i (s, e)) =
  Returned (s + Z.of_nat todo - failures i todo, e + failures i todo).
Proof.
  induction todo as [|todo IH]; intros i s e Hs He Hmax.
  - simpl. unfold failuresFrom, len. simpl. run. f_equal. f_equal; lia.
  - cbn [loadLoop]. rewrite outcome_bind, loadStep_outcome.
    rewrite failuresFrom_S.
    pose proof (failuresFrom_bounds (S i) todo) as Hb.
    destruct (fails i).
    + rewrite incr_small by lia. rewrite IH by lia. f_equal. f_equal; lia.
    + rewrite incr_small by lia. rewrite IH by lia. f_equal. f_equal; lia.
Qed.

Lemma loadLoop_requests rowCount todo : forall i c,
  storeRequests (trace (loop rowCount todo i c)) =
  flat_map owed (seq i todo).
Proof.
  induction todo as [|todo IH]; intros i c.
  - reflexivity.
  - cbn [loadLoop seq flat_map].
    rewrite trace_bind, storeRequests_app, loadStep_requests.
    destruct c as [s e]. rewrite loadStep_outcome.
    f_equal. apply IH.
Qed.

Lemma loadCounts_outcome rowCount :
  0 <= rowCount <= GoInt.maxInt ->
  outcome (counts rowCount) =
  Returned (rowCount - failures 0 (Z.to_nat rowCount),
            failures 0 (Z.to_nat rowCount)).
Proof.
  intros H. unfold loadCounts.
  rewrite loadLoop_outcome by lia.
  rewrite Z2Nat.id by lia. f_equal.
Qed.

Lemma loadLoop_returns rowCount todo : forall i c,
  exists c', outcome (loop rowCount todo i c) = Returned c'.
Proof.
  induction todo as [|todo IH]; intros i [s e].
  - exists (s, e). reflexivity.
  - cbn [loadLoop]. rewrite outcome_bind, loadStep_outcome. apply IH.
Qed.

(** The requests of a whole run: the upserts owed to the records
    [0 .. rowCount-1], in that order, and nothing else. *)
Lemma loadSampleData_requests rowCount :
  storeRequests (trace (load rowCount)) =
  flat_map owed (seq 0 (Z.to_nat rowCount)).
Proof.
  unfold loadSampleData. run.
  destruct (loadLoop_returns rowCount (Z.to_nat rowCount) 0%nat (0, 0))
    as [[s e] Hc].
  unfold loadCounts in *. rewrite Hc.
  cbn [app storeRequests]. rewrite storeRequests_app, loadLoop_requests.
  run. destruct (e >? 0); run; cbn; rewrite app_nil_r; reflexivity.
Qed.

(** The end of a run: the summary lines and the returned error. *)
Lemma loadSampleData_summary rowCount :
  0 <= rowCount <= GoInt.maxInt ->
  let failed := failures 0%nat (Z.to_nat rowCount) in
  In (Stdout (" Successful inserts: " +++ GoInt.itoa (rowCount - failed)))
     (trace (load rowCount))
  /\ outcome (load rowCount) =
     Returned (if failed >? 0
               then Some (OtherError
                            ("completed with " +++ GoInt.itoa failed
                             +++ " errors out of " +++ GoInt.itoa rowCount
                             +++ " total records"))
               else None).
Proof.
  intros H failed. unfold loadSampleData. run.
  rewrite (loadCounts_outcome rowCount H). fold failed. split.
  - apply in_cons, in_or_app. right. run.
    apply in_cons, in_or_app. left. apply in_eq.
  - destruct (failed >? 0); run; reflexivity.
Qed.

End LoaderFacts.

(** C9: for a row count [n >= 0] (a Go [int]) and whatever records fail,
    when the loop of [loadSampleData] is left the success counter plus the
    failure counter is exactly [n]; and each iteration, from counters below
    the largest [int], adds one to exactly one of the two counters and
    leaves the other as it was. *)
Theorem loadSampleData_counters_sum
  (loc : Location) (source : nat -> Draws)
  (jsonMarshal : UserSession -> string + error)
  (upsertResponse : nat -> PartitionKey -> string -> option error)
  (rowCount : Z) :
  0 <= rowCount <= GoInt.maxInt ->
  (exists successCount errorCount,
      outcome (loadCounts loc source jsonMarshal upsertResponse rowCount)
      = Returned (successCount, errorCount)
      /\ 0 <= successCount /\ 0 <= errorCount
      /\ successCount + errorCount = rowCount)
  /\ (forall i s e,
        0 <= s < GoInt.maxInt -> 0 <= e < GoInt.maxInt ->
        outcome (loadStep loc source jsonMarshal upsertResponse rowCount i (s, e))
        = Returned (s + 1, e)
        \/ outcome (loadStep loc source jsonMarshal upsertResponse rowCount i (s, e))
           = Returned (s, e + 1)).
Proof.
  intros H. split.
  - pose proof (failuresFrom_bounds loc source jsonMarshal upsertResponse
                  0 (Z.to_nat rowCount)) as Hb.
    rewrite Z2Nat.id in Hb by lia.
    eexists _, _. split; [apply loadCounts_outcome; exact H|]. lia.
  - intros i s e Hs He. rewrite loadStep_outcome.
    destruct (recordFails _ _ _ _ i).
    + right. rewrite incr_small by exact He. reflexivity.
    + left. rewrite incr_small by exact Hs. reflexivity.
Qed.

Lemma loadSampleData_counters_sum_witness :
  0 <= 10 <= GoInt.maxInt
  /\ (exists successCount errorCount,
        outcome (loadCounts utc sampleSource sampleMarshal refuseThird 10)
        = Returned (successCount, errorCount)
        /\ 0 <= successCount /\ 0 <= errorCount
        /\ successCount + errorCount = 10)
  /\ (outcome (loadStep utc sampleSource sampleMarshal refuseThird 10 2 (1, 1))
      = Returned (1 + 1, 1)
      \/ outcome (loadStep utc sampleSource sampleMarshal refuseThird 10 2 (1, 1))
         = Returned (1, 1 + 1)).
Proof.
  assert (H : 0 <= 10 <= GoInt.maxInt) by (unfold GoInt.maxInt; lia).
  destruct (loadSampleData_counters_sum utc sampleSource sampleMarshal
              refuseThird 10 H) as [Hsum Hstep].
  split; [exact H|]. split; [exact Hsum|].
  apply Hstep; unfold GoInt.maxInt; lia.
Defined.

(** C4: for a row count [n >= 0] and whatever records fail to encode or to
    be written, [loadSampleData n] goes through all [n] records (the
    requests it sends are the upserts owed to the records [0 .. n-1], in
    order: a failing record stops nothing), counts every failing record of
    the [n], prints the number of the others as successful inserts, and
    returns an error if and only if the failure count is greater than
    zero. *)
Theorem loadSampleData_batch
  (loc : Location) (source : nat -> Draws)
  (jsonMarshal : UserSession -> string + error)
  (upsertResponse : nat -> PartitionKey -> string -> option error)
  (rowCount : Z) :
  0 <= rowCount <= GoInt.maxInt ->
  let n := Z.to_nat rowCount in
  let failed := failuresFrom loc source jsonMarshal upsertResponse 0 n in
  let run := loadSampleData loc source jsonMarshal upsertResponse rowCount in
  storeRequests (trace run) = flat_map (upsertOf loc source jsonMarshal) (seq 0 n)
  /\ outcome (loadCounts loc source jsonMarshal upsertResponse rowCount)
     = Returned (rowCount - failed, failed)
  /\ In (Stdout (" Successful inserts: " +++ GoInt.itoa (rowCount - failed)))
        (trace run)
  /\ exists result,
       outcome run = Returned result /\ (result <> None <-> failed > 0).
Proof.
  intros H n failed run.
  split; [apply loadSampleData_requests|].
  split; [apply loadCounts_outcome; exact H|].
  destruct (loadSampleData_summary loc source jsonMarshal upsertResponse
              rowCount H) as [Hin Hout].
  split; [exact Hin|].
  eexists. split; [exact Hout|].
  fold n. fold failed.
  destruct (failed >? 0) eqn:E.
  - split; [lia | discriminate].
  - split; [congruence | lia].
Qed.

(** The example of the specification: ten records, two of which do not
    encode. *)
Lemma loadSampleData_batch_witness :
  0 <= 10 <= GoInt.maxInt
  /\ failuresFrom utc sampleSource sampleMarshal acceptAll 0 10 = 2
  /\ outcome (loadCounts utc sampleSource sampleMarshal acceptAll 10)
     = Returned (8, 2)
  /\ In (Stdout " Successful inserts: 8")
        (trace (loadSampleData utc sampleSource sampleMarshal acceptAll 10))
  /\ exists result,
       outcome (loadSampleData utc sampleSource sampleMarshal acceptAll 10)
       = Returned result /\ result <> None.
Proof.
  assert (H : 0 <= 10 <= GoInt.maxInt) by (unfold GoInt.maxInt; lia).
  assert (F : failuresFrom utc sampleSource sampleMarshal acceptAll 0 10 = 2)
    by (vm_compute; reflexivity).
  destruct (loadSampleData_batch utc sampleSource sampleMarshal acceptAll 10 H)
    as (_ & Hc & Hin & result & Hout & Hiff).
  change (Z.to_nat 10) with 10%nat in *. rewrite F in *.
  split; [exact H|]. split; [reflexivity|]. split; [exact Hc|].
  split; [exact Hin|].
  exists result. split; [exact Hout|]. apply Hiff. lia.
Defined.

(** C10: every upsert the loader sends carries the encoding of one of the
    generated records together with the three-segment key made of that
    same record's tenantId, userId and sessionId, in this order. *)
Theorem loadSampleData_key_of_record
  (loc : Location) (source : nat -> Draws)
  (jsonMarshal : UserSession -> string + error)
  (upsertResponse : nat -> PartitionKey -> string -> option error)
  (rowCount : Z) (pk : PartitionKey) (item : string) :
  In (UpsertItem pk item)
     (storeRequests
        (trace (loadSampleData loc source jsonMarshal upsertResponse rowCount))) ->
  exists i,
    (i < Z.to_nat rowCount)%nat
    /\ jsonMarshal (nthSession loc source i) = inl item
    /\ values pk = [ TenantID (nthSession loc source i);
                     UserID (nthSession loc source i);
                     SessionID (nthSession loc source i) ].
Proof.
  rewrite loadSampleData_requests. intros Hin.
  apply in_flat_map in Hin. destruct Hin as (i & Hi & Hreq).
  apply in_seq in Hi. exists i. split; [lia|].
  unfold upsertOf in Hreq.
  destruct (jsonMarshal (nthSession loc source i)) as [doc|err].
  - destruct Hreq as [Heq|[]]. inversion Heq; subst. split; reflexivity.
  - destruct Hreq.
Qed.

Lemma loadSampleData_key_of_record_witness :
  exists i,
    (i < Z.to_nat 3)%nat
    /\ sampleMarshal (nthSession utc sampleSource i)
       = inl "c0ba6ff6-a622-4b30-bcd3-b92960336972,MidMarket-Inc,user-117,session-b08fa8a4,view_dashboard"
    /\ values (mkPartitionKey ["MidMarket-Inc"; "user-117"; "session-b08fa8a4"])
       = [ TenantID (nthSession utc sampleSource i);
           UserID (nthSession utc sampleSource i);
           SessionID (nthSession utc sampleSource i) ].
Proof.
  apply (loadSampleData_key_of_record utc sampleSource sampleMarshal acceptAll 3).
  vm_compute. right. left. reflexivity.
Defined.

(** ** Setup *)

Lemma isConflict_true err :
  isConflict err = true <-> errorsAsResponseError err = Some 409.
Proof.
  unfold isConflict. destruct (errorsAsResponseError err) as [code|].
  - rewrite Z.eqb_eq. split; congruence.
  - split; discriminate.
Qed.

Lemma isConflict_false err :
  errorsAsResponseError err <> Some 409 -> isConflict err = false.
Proof.
  intros H. destruct (isConflict err) eqn:E; [|reflexivity].
  apply isConflict_true in E. contradiction.
Qed.

Section SetupFacts.

Variable createDatabaseResponse : string -> option error.
Variable newDatabaseError : string -> option error.
Variable createContainerResponse : string -> string -> option error.
Variable newContainerError : string -> string -> option error.

Local Abbreviation ensureC :=
  (ensureContainer newDatabaseError createContainerResponse newContainerError).
Local Abbreviation ensureDC :=
  (ensureDatabaseAndContainer createDatabaseResponse newDatabaseError
     createContainerResponse newContainerError).

Variables databaseName containerName : string.

Local Abbreviation containerRequest :=
  (CreateContainer containerName PartitionKeyKindMultiHash 2
     ["/tenantId"; "/userId"; "/sessionId"] 400).

(** Once the database step is passed, a container that is created or
    exists already gives the handle. *)
Lemma ensureContainer_ok :
  newDatabaseError databaseName = None ->
  createdOrExists (createContainerResponse databaseName containerName) ->
  newContainerError databaseName containerName = None ->
  outcome (ensureC databaseName containerName)
  = Returned (inl (mkContainerClient databaseName containerName))
  /\ storeRequests (trace (ensureC databaseName containerName))
     = [containerRequest].
Proof.
  intros Hdb Hct Hcl. unfold ensureContainer, getContainerClient.
  rewrite Hdb, Hcl.
  destruct (createContainerResponse databaseName containerName) as [err|].
  - apply isConflict_true in Hct. rewrite Hct. cbn [negb]. run.
    split; reflexivity.
  - run. split; reflexivity.
Qed.

Lemma ensureContainer_fails err :
  newDatabaseError databaseName = None ->
  creationFails (createContainerResponse databaseName containerName) err ->
  outcome (ensureC databaseName containerName)
  = Returned (inr (Errorf "failed to create container: " err))
  /\ storeRequests (trace (ensureC databaseName containerName))
     = [containerRequest].
Proof.
  intros Hdb [Hct Hno]. unfold ensureContainer. rewrite Hdb, Hct.
  rewrite (isConflict_false err Hno). cbn [negb]. run.
  split; reflexivity.
Qed.

(** The database step: a database that is created or exists already
    hands over to the container step. *)
Lemma ensureDatabase_continues :
  createdOrExists (createDatabaseResponse databaseName) ->
  outcome (ensureDC databaseName containerName)
  = outcome (ensureC databaseName containerName)
  /\ storeRequests (trace (ensureDC databaseName containerName))
     = CreateDatabase databaseName
       :: storeRequests (trace (ensureC databaseName containerName)).
Proof.
  intros Hdb. unfold ensureDatabaseAndContainer.
  destruct (createDatabaseResponse databaseName) as [err|].
  - apply isConflict_true in Hdb. rewrite Hdb. cbn [negb]. run.
    split; reflexivity.
  - run. split; reflexivity.
Qed.

End SetupFacts.

(** C8: the setup takes a creation answer with status 409 as it takes a
    creation without error, for the database and for the container: it
    goes on, sends both creation requests and (the two client handles
    being built without error) returns the handle of the container; any
    other error of a creation request is returned as the failure of the
    setup, and after such an error of the database creation the container
    is not requested. *)
Theorem ensureDatabaseAndContainer_conflict_is_success
  (createDatabaseResponse newDatabaseError : string -> option error)
  (createContainerResponse newContainerError : string -> string -> option error)
  (databaseName containerName : string) :
  let setup := ensureDatabaseAndContainer createDatabaseResponse newDatabaseError
                 createContainerResponse newContainerError
                 databaseName containerName in
  let containerRequest := CreateContainer containerName PartitionKeyKindMultiHash 2
                            ["/tenantId"; "/userId"; "/sessionId"] 400 in
  (createdOrExists (createDatabaseResponse databaseName) ->
   createdOrExists (createContainerResponse databaseName containerName) ->
   newDatabaseError databaseName = None ->
   newContainerError databaseName containerName = None ->
   outcome setup = Returned (inl (mkContainerClient databaseName containerName))
   /\ storeRequests (trace setup)
      = [CreateDatabase databaseName; containerRequest])
  /\ (forall err,
        creationFails (createDatabaseResponse databaseName) err ->
        outcome setup = Returned (inr (Errorf "failed to create database: " err))
        /\ storeRequests (trace setup) = [CreateDatabase databaseName])
  /\ (forall err,
        createdOrExists (createDatabaseResponse databaseName) ->
        newDatabaseError databaseName = None ->
        creationFails (createContainerResponse databaseName containerName) err ->
        outcome setup = Returned (inr (Errorf "failed to create container: " err))
        /\ storeRequests (trace setup)
           = [CreateDatabase databaseName; containerRequest]).
Proof.
  intros setup containerRequest. subst setup containerRequest.
  split; [|split].
  - intros Hdb Hct Hnd Hnc.
    destruct (ensureDatabase_continues createDatabaseResponse newDatabaseError
                createContainerResponse newContainerError
                databaseName containerName Hdb) as [Ho Ht].
    destruct (ensureContainer_ok newDatabaseError createContainerResponse
                newContainerError databaseName containerName Hnd Hct Hnc)
      as [Ho' Ht'].
    rewrite Ho, Ht, Ho', Ht'. split; reflexivity.
  - intros err [Hdb Hno]. unfold ensureDatabaseAndContainer.
    rewrite Hdb, (isConflict_false err Hno). cbn [negb]. run.
    split; reflexivity.
  - intros err Hdb Hnd Hct.
    destruct (ensureDatabase_continues createDatabaseResponse newDatabaseError
                createContainerResponse newContainerError
                databaseName containerName Hdb) as [Ho Ht].
    destruct (ensureContainer_fails newDatabaseError createContainerResponse
                newContainerError databaseName containerName err Hnd Hct)
      as [Ho' Ht'].
    rewrite Ho, Ht, Ho', Ht'. split; reflexivity.
Qed.

Lemma ensureDatabaseAndContainer_conflict_is_success_witness :
  (outcome (ensureDatabaseAndContainer
              (fun _ => Some alreadyExists) (fun _ => None)
              (fun _ _ => Some (Errorf "create: " alreadyExists)) (fun _ _ => None)
              "sampleDB" "UserSessions")
   = Returned (inl (mkContainerClient "sampleDB" "UserSessions")))
  /\ (outcome (ensureDatabaseAndContainer
                 (fun _ => Some forbidden) (fun _ => None)
                 (fun _ _ => None) (fun _ _ => None)
                 "sampleDB" "UserSessions")
      = Returned (inr (Errorf "failed to create database: " forbidden)))
  /\ (outcome (ensureDatabaseAndContainer
                 (fun _ => None) (fun _ => None)
                 (fun _ _ => Some forbidden) (fun _ _ => None)
                 "sampleDB" "UserSessions")
      = Returned (inr (Errorf "failed to create container: " forbidden))).
Proof.
  split; [|split].
  - pose proof (ensureDatabaseAndContainer_conflict_is_success
                  (fun _ => Some alreadyExists) (fun _ => None)
                  (fun _ _ => Some (Errorf "create: " alreadyExists))
                  (fun _ _ => None) "sampleDB" "UserSessions") as T.
    cbv zeta in T. destruct T as (T & _ & _).
    apply T; reflexivity.
  - pose proof (ensureDatabaseAndContainer_conflict_is_success
                  (fun _ => Some forbidden) (fun _ => None)
                  (fun _ _ => None) (fun _ _ => None)
                  "sampleDB" "UserSessions") as T.
    cbv zeta in T. destruct T as (_ & T & _).
    apply (T forbidden). split; [reflexivity | discriminate].
  - pose proof (ensureDatabaseAndContainer_conflict_is_success
                  (fun _ => None) (fun _ => None)
                  (fun _ _ => Some forbidden) (fun _ _ => None)
                  "sampleDB" "UserSessions") as T.
    cbv zeta in T. destruct T as (_ & _ & T).
    apply (T forbidden); [exact I | reflexivity |].
    split; [reflexivity | discriminate].
Defined.

(** ** The query program *)

Lemma bind_exited {A B} (m : Prog A) (k : A -> Prog B) c :
  outcome m = Exited c -> bind m k = (trace m, Exited c).
Proof.
  destruct m as [tr [a|c']]; unfold outcome, trace; simpl; intros H;
    [discriminate | congruence].
Qed.

Lemma bind_then {A B} (m : Prog A) (x y : Prog B) :
  x = y -> bind m (fun _ => x) = bind m (fun _ => y).
Proof. intros ->. reflexivity. Qed.

Section QueryFacts.

Variable jsonUnmarshal : string -> QueryResult + error.

Local Abbreviation items_loop := (forItems jsonUnmarshal).
Local Abbreviation ok := (decodes jsonUnmarshal).
Local Abbreviation cut := (upToUndecodable jsonUnmarshal).

Section Items.

(** What is done with a decoded record: printing only. *)
Variable show : QueryResult -> Prog unit.
Hypothesis show_returns : forall q, outcome (show q) = Returned tt.
Hypothesis show_quiet : forall q, storeRequests (trace (show q)) = [].

Lemma forItems_quiet items :
  storeRequests (trace (items_loop show items)) = [].
Proof.
  induction items as [|raw rest IH]; cbn [forItems]; [reflexivity|].
  destruct (jsonUnmarshal raw) as [q|err]; [|reflexivity].
  rewrite trace_bind, storeRequests_app, show_quiet, show_returns.
  exact IH.
Qed.

(** Nothing after the first item that does not decode is looked at. *)
Lemma forItems_cut items :
  items_loop show items = items_loop show (cut items).
Proof.
  induction items as [|raw rest IH]; cbn [forItems upToUndecodable];
    [reflexivity|].
  unfold decodes.
  destruct (jsonUnmarshal raw) as [q|err] eqn:E; cbn [forItems]; rewrite E.
  - rewrite IH. reflexivity.
  - reflexivity.
Qed.

Lemma forItems_outcome items :
  outcome (items_loop show items) =
  if forallb ok items then Returned tt else Exited 1.
Proof.
  induction items as [|raw rest IH]; cbn [forItems forallb];
    [reflexivity|].
  unfold decodes at 1.
  destruct (jsonUnmarshal raw) as [q|err]; cbn [andb].
  - rewrite outcome_bind, show_returns. exact IH.
  - reflexivity.
Qed.

(** The records before the first that does not decode are shown, in
    order; then the error is logged and the process is left. *)
Lemma forItems_fatal before raw after err :
  forallb ok before = true ->
  jsonUnmarshal raw = inr err ->
  items_loop show (before ++ raw :: after) =
  (trace (items_loop show before) ++ [LogLine (Error err)], Exited 1).
Proof.
  intros Hb Hraw. induction before as [|b before IH].
  - cbn [app forItems]. rewrite Hraw. reflexivity.
  - cbn [forallb] in Hb. apply andb_prop in Hb. destruct Hb as [Hb1 Hb2].
    cbn [app forItems]. unfold decodes in Hb1.
    destruct (jsonUnmarshal b) as [q|e]; [|discriminate].
    rewrite (IH Hb2).
    rewrite (prog_eta (bind (show q) _)).
    rewrite outcome_bind, !trace_bind, show_returns.
    cbn [trace outcome fst snd]. rewrite app_assoc. reflexivity.
Qed.

End Items.

Section Pager.

Variable request : StoreRequest.
Variable body : QueryItemsResponse -> Prog unit.

Hypothesis body_quiet : forall page, storeRequests (trace (body page)) = [].
Hypothesis body_cut : forall page, body page = body (cutPage jsonUnmarshal page).
Hypothesis body_outcome : forall page,
  outcome (body page) =
  if forallb ok (Items page) then Returned tt else Exited 1.

(** The pager sends the same request once for each page it asks for,
    and at least once. *)
Lemma forPages_requests pages :
  exists k, storeRequests (trace (forPages request body pages))
            = repeat request (S k).
Proof.
  induction pages as [r|r rest [k IH]]; cbn [forPages]; run.
  - exists 0%nat. destruct r as [page|err]; cbn.
    + rewrite body_quiet. reflexivity.
    + reflexivity.
  - destruct r as [page|err].
    + rewrite trace_bind. cbn [app storeRequests].
      rewrite storeRequests_app, body_quiet, body_outcome.
      destruct (forallb ok (Items page)).
      * exists (S k). cbn [app]. rewrite IH. reflexivity.
      * exists 0%nat. reflexivity.
    + exists 0%nat. reflexivity.
Qed.

(** A run does not depend on what the store would answer after the
    first failure. *)
Lemma forPages_cut pages :
  forPages request body pages
  = forPages request body (upToFailure jsonUnmarshal pages).
Proof.
  induction pages as [r|r rest IH]; cbn [forPages upToFailure].
  - destruct r as [page|err]; cbn [forPages]; [|reflexivity].
    rewrite <- body_cut. reflexivity.
  - destruct r as [page|err]; cbn [forPages]; [|reflexivity].
    destruct (forallb ok (Items page)) eqn:E; cbn [forPages].
    + rewrite IH. reflexivity.
    + rewrite <- body_cut.
      assert (Hx : outcome (body page) = Exited 1)
        by (rewrite body_outcome, E; reflexivity).
      rewrite (bind_exited (body page) _ 1 Hx).
      destruct (body page) as [tr o]. unfold outcome in Hx. cbn in Hx.
      subst o. reflexivity.
Qed.

Lemma forPages_fatal pages :
  reachesUndecodable jsonUnmarshal pages = true ->
  outcome (forPages request body pages) = Exited 1.
Proof.
  induction pages as [r|r rest IH]; cbn [forPages reachesUndecodable];
    intros H; run.
  - destruct r as [page|err]; [|discriminate].
    rewrite body_outcome. apply negb_true_iff in H. rewrite H. reflexivity.
  - destruct r as [page|err]; [|discriminate].
    rewrite outcome_bind, body_outcome.
    destruct (forallb ok (Items page)); [|reflexivity].
    apply IH. exact H.
Qed.

End Pager.

End QueryFacts.

(** The three queries print what they decode and send nothing but their
    page requests. *)
Ltac printing_only := intros; run; reflexivity.

Section Queries.

Variable store : Container.
Variable jsonUnmarshal : string -> QueryResult + error.

Lemma queryWithFullPartitionKey_requests tenantID userID sessionID :
  exists k,
    storeRequests (trace (queryWithFullPartitionKey (Some store) jsonUnmarshal
                            tenantID userID sessionID))
    = repeat (QueryItemsNextPage
                "SELECT * FROM c WHERE c.tenantId = @tenantId AND c.userId = @userId AND c.sessionId = @sessionId"
                (mkPartitionKey [tenantID; userID; sessionID])
                [ mkQueryParameter "@tenantId" tenantID;
                  mkQueryParameter "@userId" userID;
                  mkQueryParameter "@sessionId" sessionID ])
             (S k).
Proof.
  unfold queryWithFullPartitionKey, NewQueryItemsPager.
  rewrite bind_ret_l. cbn [fst snd].
  run. cbn [app storeRequests].
  apply forPages_requests with (jsonUnmarshal := jsonUnmarshal).
  - intros page. apply forItems_quiet; printing_only.
  - intros page. apply forItems_outcome. printing_only.
Qed.

Lemma queryWithTenantAndUserID_requests tenantID userID :
  exists k,
    storeRequests (trace (queryWithTenantAndUserID (Some store) jsonUnmarshal
                            tenantID userID))
    = repeat (QueryItemsNextPage
                "SELECT * FROM c WHERE c.tenantId = @tenantId AND c.userId = @userId"
                NewPartitionKey
                [ mkQueryParameter "@tenantId" tenantID;
                  mkQueryParameter "@userId" userID ])
             (S k).
Proof.
  unfold queryWithTenantAndUserID, NewQueryItemsPager.
  rewrite bind_ret_l. cbn [fst snd].
  apply forPages_requests with (jsonUnmarshal := jsonUnmarshal).
  - intros page. run. cbn [app storeRequests].
    apply forItems_quiet; printing_only.
  - intros page. run. apply forItems_outcome. printing_only.
Qed.

Lemma queryWithSinglePKParameter_rejected global paramType paramValue :
  paramType <> "tenantId" -> paramType <> "userId" -> paramType <> "sessionId" ->
  queryWithSinglePKParameter global jsonUnmarshal paramType paramValue
  = ([LogLine ("Invalid parameter type: " +++ paramType)], Exited 1).
Proof.
  intros H1 H2 H3. unfold queryWithSinglePKParameter.
  apply String.eqb_neq in H1, H2, H3. rewrite H1, H2, H3. reflexivity.
Qed.

(** With the container nil the three queries end in the panic of
    [NewQueryItemsPager], the single-field query once its guard is passed;
    nothing is printed or sent. *)
Lemma queryWithFullPartitionKey_nil tenantID userID sessionID :
  queryWithFullPartitionKey None jsonUnmarshal tenantID userID sessionID
  = ([], Exited 2).
Proof. reflexivity. Qed.

Lemma queryWithTenantAndUserID_nil tenantID userID :
  queryWithTenantAndUserID None jsonUnmarshal tenantID userID = ([], Exited 2).
Proof. reflexivity. Qed.

Lemma queryWithSinglePKParameter_nil paramType paramValue :
  paramType = "tenantId" \/ paramType = "userId" \/ paramType = "sessionId" ->
  queryWithSinglePKParameter None jsonUnmarshal paramType paramValue
  = ([], Exited 2).
Proof. intros [->|[->| ->]]; reflexivity. Qed.

Lemma queryWithSinglePKParameter_requests paramType paramValue :
  paramType = "tenantId" \/ paramType = "userId" \/ paramType = "sessionId" ->
  exists k,
    storeRequests (trace (queryWithSinglePKParameter (Some store) jsonUnmarshal
                            paramType paramValue))
    = repeat (QueryItemsNextPage
                ("SELECT * FROM c WHERE c." +++ paramType +++ " = @param")
                NewPartitionKey
                [ mkQueryParameter "@param" paramValue ])
             (S k).
Proof.
  intros H. unfold queryWithSinglePKParameter, NewQueryItemsPager.
  assert (G : negb (paramType =? "tenantId")%string
              && negb (paramType =? "userId")%string
              && negb (paramType =? "sessionId")%string = false)
    by (destruct H as [->|[->| ->]]; reflexivity).
  rewrite G, !bind_ret_l. cbn [fst snd].
  apply forPages_requests with (jsonUnmarshal := jsonUnmarshal).
  - intros page. run. cbn [app storeRequests].
    apply forItems_quiet; printing_only.
  - intros page. run. apply forItems_outcome. printing_only.
Qed.

End Queries.

(** C1, as the code has it: the query for a known tenant and user filters
    on both through its text and its two parameters, and every page
    request of it is sent with the empty partition key, that is, without
    any key scope.  (Through a nil container nothing is sent at all.) *)
Theorem queryWithTenantAndUserID_unscoped
  (store : Container)
  (jsonUnmarshal : string -> QueryResult + error)
  (tenantID userID : string) :
  values NewPartitionKey = []
  /\ (exists k,
        storeRequests (trace (queryWithTenantAndUserID (Some store) jsonUnmarshal
                                tenantID userID))
        = repeat (QueryItemsNextPage
                    "SELECT * FROM c WHERE c.tenantId = @tenantId AND c.userId = @userId"
                    NewPartitionKey
                    [ mkQueryParameter "@tenantId" tenantID;
                      mkQueryParameter "@userId" userID ])
                 (S k))
  /\ storeRequests (trace (queryWithTenantAndUserID None jsonUnmarshal
                             tenantID userID)) = [].
Proof.
  split; [reflexivity|]. split.
  - apply queryWithTenantAndUserID_requests.
  - reflexivity.
Qed.

(** C1 as stated fails: for tenant "LocalShops-SME" and user "user-42"
    (the call of [main]) the request goes out with the empty key, not with
    the key of the two segments. *)
Lemma queryWithTenantAndUserID_scope_counterexample :
  exists req,
    In req (storeRequests
              (trace (queryWithTenantAndUserID (Some (onePage [])) sampleUnmarshal
                        "LocalShops-SME" "user-42")))
    /\ keyScope req = Some (mkPartitionKey [])
    /\ keyScope req <> Some (mkPartitionKey ["LocalShops-SME"; "user-42"]).
Proof.
  eexists. split; [left; reflexivity|].
  split; [reflexivity | discriminate].
Qed.

(** C2: a single-field query on a field name other than tenantId, userId
    and sessionId is refused before anything is sent to the store,
    whatever the container: the run logs the invalid parameter type and
    leaves the process, its trace holds no request.  On each of the three
    names the query goes to the store, with the empty partition key and
    the value as its parameter, when the global container addresses a
    container; when it is nil, as the program leaves it, the call ends
    in the panic of [NewQueryItemsPager] and nothing is sent. *)
Theorem queryWithSinglePKParameter_guard
  (global : option Container) (store : Container)
  (jsonUnmarshal : string -> QueryResult + error)
  (paramType paramValue : string) :
  (paramType <> "tenantId" -> paramType <> "userId" -> paramType <> "sessionId" ->
   let run := queryWithSinglePKParameter global jsonUnmarshal
                paramType paramValue in
   outcome run = Exited 1
   /\ trace run = [LogLine ("Invalid parameter type: " +++ paramType)]
   /\ storeRequests (trace run) = [])
  /\ (paramType = "tenantId" \/ paramType = "userId" \/ paramType = "sessionId" ->
      exists k,
        storeRequests (trace (queryWithSinglePKParameter (Some store)
                                jsonUnmarshal paramType paramValue))
        = repeat (QueryItemsNextPage
                    ("SELECT * FROM c WHERE c." +++ paramType +++ " = @param")
                    NewPartitionKey
                    [ mkQueryParameter "@param" paramValue ])
                 (S k))
  /\ (paramType = "tenantId" \/ paramType = "userId" \/ paramType = "sessionId" ->
      queryWithSinglePKParameter None jsonUnmarshal paramType paramValue
      = ([], Exited 2)).
Proof.
  split; [|split].
  - intros H1 H2 H3. cbv zeta.
    rewrite (queryWithSinglePKParameter_rejected jsonUnmarshal global
               paramType paramValue H1 H2 H3).
    repeat split.
  - apply queryWithSinglePKParameter_requests.
  - apply queryWithSinglePKParameter_nil.
Qed.

Lemma queryWithSinglePKParameter_guard_witness :
  (outcome (queryWithSinglePKParameter container sampleUnmarshal
              "activity" "login") = Exited 1
   /\ storeRequests (trace (queryWithSinglePKParameter container
                              sampleUnmarshal "activity" "login")) = [])
  /\ (exists k,
        storeRequests (trace (queryWithSinglePKParameter (Some (onePage ["a"]))
                                sampleUnmarshal "tenantId" "Enterprise-Corp"))
        = repeat (QueryItemsNextPage "SELECT * FROM c WHERE c.tenantId = @param"
                    NewPartitionKey
                    [ mkQueryParameter "@param" "Enterprise-Corp" ])
                 (S k))
  /\ queryWithSinglePKParameter container sampleUnmarshal
       "tenantId" "Enterprise-Corp"
     = ([], Exited 2).
Proof.
  destruct (queryWithSinglePKParameter_guard container (onePage ["a"])
              sampleUnmarshal "activity" "login") as (T & _ & _).
  destruct (queryWithSinglePKParameter_guard container (onePage ["a"])
              sampleUnmarshal "tenantId" "Enterprise-Corp") as (_ & S1 & S2).
  split; [|split].
  - destruct T as (To & _ & Tr); [discriminate | discriminate | discriminate |].
    split; [exact To | exact Tr].
  - apply S1. left. reflexivity.
  - apply S2. left. reflexivity.
Defined.

(** ** Decoding failures *)

Section Decoding.

Variable store : Container.
Variable jsonUnmarshal : string -> QueryResult + error.

Local Abbreviation cutS := (Some (cutStore jsonUnmarshal store)).

Hypothesis undecodable : forall query pk params,
  reachesUndecodable jsonUnmarshal (queryItems store query pk params) = true.

Lemma queryWithFullPartitionKey_fatal tenantID userID sessionID :
  outcome (queryWithFullPartitionKey (Some store) jsonUnmarshal
             tenantID userID sessionID) = Exited 1
  /\ queryWithFullPartitionKey (Some store) jsonUnmarshal tenantID userID sessionID
     = queryWithFullPartitionKey cutS jsonUnmarshal tenantID userID sessionID.
Proof.
  unfold queryWithFullPartitionKey, NewQueryItemsPager, cutStore.
  rewrite !bind_ret_l. cbn [fst snd queryItems]. split.
  - run. apply forPages_fatal with (jsonUnmarshal := jsonUnmarshal).
    + intros page. apply forItems_outcome. printing_only.
    + apply undecodable.
  - apply bind_then. apply forPages_cut.
    + intros page. unfold cutPage. cbn [Items RequestCharge].
      apply forItems_cut.
    + intros page. apply forItems_outcome. printing_only.
Qed.

Lemma queryWithTenantAndUserID_fatal tenantID userID :
  outcome (queryWithTenantAndUserID (Some store) jsonUnmarshal tenantID userID)
  = Exited 1
  /\ queryWithTenantAndUserID (Some store) jsonUnmarshal tenantID userID
     = queryWithTenantAndUserID cutS jsonUnmarshal tenantID userID.
Proof.
  unfold queryWithTenantAndUserID, NewQueryItemsPager, cutStore.
  rewrite !bind_ret_l. cbn [fst snd queryItems]. split.
  - apply forPages_fatal with (jsonUnmarshal := jsonUnmarshal).
    + intros page. run. apply forItems_outcome. printing_only.
    + apply undecodable.
  - apply forPages_cut.
    + intros page. unfold cutPage. cbn [Items RequestCharge].
      do 2 apply bind_then. apply forItems_cut.
    + intros page. run. apply forItems_outcome. printing_only.
Qed.

Lemma queryWithSinglePKParameter_fatal paramType paramValue :
  outcome (queryWithSinglePKParameter (Some store) jsonUnmarshal
             paramType paramValue) = Exited 1
  /\ queryWithSinglePKParameter (Some store) jsonUnmarshal paramType paramValue
     = queryWithSinglePKParameter cutS jsonUnmarshal paramType paramValue.
Proof.
  unfold queryWithSinglePKParameter, NewQueryItemsPager, cutStore.
  destruct (negb (paramType =? "tenantId")%string
            && negb (paramType =? "userId")%string
            && negb (paramType =? "sessionId")%string).
  - split; reflexivity.
  - rewrite !bind_ret_l. cbn [fst snd queryItems]. split.
    + apply forPages_fatal with (jsonUnmarshal := jsonUnmarshal).
      * intros page. run. apply forItems_outcome. printing_only.
      * apply undecodable.
    + apply forPages_cut.
      * intros page. unfold cutPage. cbn [Items RequestCharge].
        do 2 apply bind_then. apply forItems_cut.
      * intros page. run. apply forItems_outcome. printing_only.
Qed.

End Decoding.




(** ** Keys *)

(** C6, as the code has it: a key is built without any check.  Whatever
    the three strings are, empty or not, the key holds exactly these three
    segments in the order given, and the point read and the full-key query
    send it to the store as it is. *)
Theorem partition_key_unchecked
  (store : Container)
  (jsonUnmarshal : string -> QueryResult + error)
  (id tenantId userId sessionId : string) :
  AppendString (AppendString (NewPartitionKeyString tenantId) userId) sessionId
  = mkPartitionKey [tenantId; userId; sessionId]
  /\ storeRequests (trace (executePointRead (Some store) jsonUnmarshal
                             id tenantId userId sessionId))
     = [ReadItem (mkPartitionKey [tenantId; userId; sessionId]) id]
  /\ exists k,
      storeRequests (trace (queryWithFullPartitionKey (Some store) jsonUnmarshal
                              tenantId userId sessionId))
      = repeat (QueryItemsNextPage
                  "SELECT * FROM c WHERE c.tenantId = @tenantId AND c.userId = @userId AND c.sessionId = @sessionId"
                  (mkPartitionKey [tenantId; userId; sessionId])
                  [ mkQueryParameter "@tenantId" tenantId;
                    mkQueryParameter "@userId" userId;
                    mkQueryParameter "@sessionId" sessionId ])
               (S k).
Proof.
  split; [reflexivity|]. split.
  - unfold executePointRead.
    change (AppendString (AppendString (NewPartitionKeyString tenantId) userId)
                         sessionId)
      with (mkPartitionKey [tenantId; userId; sessionId]).
    run. destruct (readItem store _ id) as [resp|err]; run; [|reflexivity].
    destruct (jsonUnmarshal (ItemValue resp)) as [q|err]; run; reflexivity.
  - apply queryWithFullPartitionKey_requests.
Qed.

(** C6 as stated fails: a key with an empty segment is not refused.  The
    point read for an empty tenant builds the key and sends it. *)
Lemma empty_segment_counterexample :
  values (fullKey "" "user-42" "session-0361ef4c")
  = [""; "user-42"; "session-0361ef4c"]
  /\ storeRequests
       (trace (executePointRead (Some (onePage [])) sampleUnmarshal
                 "c0ba6ff6-a622-4b30-bcd3-b92960336976"
                 "" "user-42" "session-0361ef4c"))
     = [ReadItem (mkPartitionKey [""; "user-42"; "session-0361ef4c"])
                 "c0ba6ff6-a622-4b30-bcd3-b92960336976"].
Proof. split; reflexivity. Qed.

(** ** Timestamps *)

Lemma unixNano_Add t d : unixNano (Add t d) = unixNano t + d.
Proof.
  unfold Add, unixNano. cbn [unixSec nsec].
  pose proof (Z.div_mod (unixSec t * Second + nsec t + d) Second) as H.
  unfold Second in *. lia.
Qed.

(** Where the zone never changes a calendar day lasts 24 hours. *)
Lemma unixNano_AddDateDays_utc t days :
  unixNano (AddDateDays utc t days) = unixNano t + days * 24 * Hour.
Proof.
  unfold AddDateDays, DateOfWall, wallSeconds, utc, unixNano.
  cbn [offset unixSec nsec Z.eqb]. unfold Hour, Minute, Second. lia.
Qed.

Lemma Intn_range raw n : 0 < n -> 0 <= Intn raw n < n.
Proof. intros H. unfold Intn. apply Z.mod_pos_bound. exact H. Qed.

(** In such a location the timestamp of a generated session lies in the
    thirty days before the clock reading. *)
Lemma generateUserSession_window_utc (r : Draws) :
  unixNano (now r) - 30 * 24 * Hour
  < unixNano (Timestamp (generateUserSession utc r))
  <= unixNano (now r).
Proof.
  unfold generateUserSession. cbn [Timestamp].
  rewrite !unixNano_Add, unixNano_AddDateDays_utc.
  pose proof (Intn_range (rDays r) 30 eq_refl).
  pose proof (Intn_range (rHours r) 24 eq_refl).
  pose proof (Intn_range (rMinutes r) 60 eq_refl).
  unfold Hour, Minute, Second. lia.
Qed.

(** When the thirty days are counted on the calendar too, as
    [now.AddDate(0, 0, -30)], it is the start of daylight time that puts
    the timestamp out of the window: on 2024-04-08 at 12:00 the same draws
    give a timestamp 59 minutes before 12:00 on 2024-03-09. *)
Lemma generateUserSession_before_calendar_window :
  unixNano (Timestamp (generateUserSession newYork earlyApril))
  = unixNano (AddDateDays newYork (now earlyApril) (-30)) - 59 * Minute.
Proof. vm_compute. reflexivity. Qed.

(** C7 on a day count that crosses the end of daylight time: on
    2024-11-30 at 12:00 in New York, with 29 days, 23 hours and 59 minutes
    drawn, [AddDate] goes back to 12:00 on 2024-11-01, which is 29 days and
    one hour earlier, and the timestamp comes out 59 minutes before
    [now - 30 days]. *)
Theorem generateUserSession_before_window :
  unixNano (Timestamp (generateUserSession newYork lateNovember))
  = unixNano (now lateNovember) - 30 * 24 * Hour - 59 * Minute
  /\ unixNano (Timestamp (generateUserSession newYork lateNovember))
     < unixNano (now lateNovember) - 30 * 24 * Hour.
Proof. split; vm_compute; reflexivity. Qed.

(** * Further properties of the two programs *)

(** ** The generator *)

Lemma Intn_cases5 raw :
  Intn raw 5 = 0 \/ Intn raw 5 = 1 \/ Intn raw 5 = 2 \/ Intn raw 5 = 3
  \/ Intn raw 5 = 4.
Proof. pose proof (Intn_range raw 5 eq_refl). lia. Qed.

Lemma tenantOf_in r :
  In (tenantOf r) tenantTypes /\ 0 < userMax (tenantOf r) - userMin (tenantOf r) + 1.
Proof.
  unfold tenantOf. change (len tenantTypes) with 5.
  destruct (Intn_cases5 (rTenant r)) as [E|[E|[E|[E|E]]]]; rewrite E;
    (split; [cbv; auto 10 | cbv; reflexivity]).
Qed.

Lemma nth_In_default {A} (l : list A) (n : nat) (d : A) :
  (n < List.length l)%nat -> In (nth n l d) l.
Proof. apply nth_In. Qed.

(** X1: a generated session belongs to a tenant of the catalogue, its user
    is "user-n" with n between the smallest and the largest user number of
    that tenant, and its activity is one of the catalogue of activities. *)
Theorem generateUserSession_in_catalogue (loc : Location) (r : Draws) :
  exists tenant n,
    In tenant tenantTypes
    /\ TenantID (generateUserSession loc r) = name tenant
    /\ UserID (generateUserSession loc r) = "user-" +++ GoInt.itoa n
    /\ userMin tenant <= n <= userMax tenant
    /\ In (Activity (generateUserSession loc r)) activities.
Proof.
  destruct (tenantOf_in r) as [Hin Hpos].
  exists (tenantOf r),
         (Intn (rUser r) (userMax (tenantOf r) - userMin (tenantOf r) + 1)
          + userMin (tenantOf r)).
  split; [exact Hin|]. split; [reflexivity|]. split; [reflexivity|].
  split.
  - pose proof (Intn_range (rUser r) _ Hpos). lia.
  - unfold generateUserSession. cbn [Activity]. unfold index.
    apply nth_In_default.
    pose proof (Intn_range (rActivity r) (len activities) eq_refl) as H.
    unfold len in *. lia.
Qed.

Lemma generateUserSession_segments_nonempty loc r :
  TenantID (generateUserSession loc r) <> ""
  /\ UserID (generateUserSession loc r) <> ""
  /\ SessionID (generateUserSession loc r) <> "".
Proof.
  split; [|split; discriminate].
  change (TenantID (generateUserSession loc r)) with (name (tenantOf r)).
  unfold tenantOf. change (len tenantTypes) with 5.
  destruct (Intn_cases5 (rTenant r)) as [E|[E|[E|[E|E]]]]; rewrite E;
    discriminate.
Qed.

(** X2: every key the loader sends to the store has three segments and
    none of them is empty. *)
Theorem loadSampleData_keys_well_formed
  (loc : Location) (source : nat -> Draws)
  (jsonMarshal : UserSession -> string + error)
  (upsertResponse : nat -> PartitionKey -> string -> option error)
  (rowCount : Z) (pk : PartitionKey) (item : string) :
  In (UpsertItem pk item)
     (storeRequests
        (trace (loadSampleData loc source jsonMarshal upsertResponse rowCount))) ->
  List.length (values pk) = 3%nat /\ Forall (fun segment => segment <> "") (values pk).
Proof.
  rewrite loadSampleData_requests. intros Hin.
  apply in_flat_map in Hin. destruct Hin as (i & _ & Hreq).
  unfold upsertOf in Hreq.
  destruct (jsonMarshal (nthSession loc source i)) as [doc|err];
    [|destruct Hreq].
  destruct Hreq as [Heq|[]]. inversion Heq; subst. clear Heq.
  split; [reflexivity|].
  destruct (generateUserSession_segments_nonempty loc (source i))
    as (Ht & Hu & Hs).
  unfold keyOfSession, nthSession. cbn [values].
  repeat constructor; assumption.
Qed.

Lemma loadSampleData_keys_well_formed_witness :
  List.length (values (mkPartitionKey ["MidMarket-Inc"; "user-117"; "session-b08fa8a4"]))
  = 3%nat
  /\ Forall (fun segment => segment <> "")
            (values (mkPartitionKey ["MidMarket-Inc"; "user-117"; "session-b08fa8a4"])).
Proof.
  apply (loadSampleData_keys_well_formed utc sampleSource sampleMarshal acceptAll 3
           _ "c0ba6ff6-a622-4b30-bcd3-b92960336972,MidMarket-Inc,user-117,session-b08fa8a4,view_dashboard").
  vm_compute. right. left. reflexivity.
Defined.

Lemma unixNano_AddDateDays_fixed loc off t days :
  fixedOffset loc off ->
  unixNano (AddDateDays loc t days) = unixNano t + days * 24 * Hour.
Proof.
  intros H. unfold AddDateDays, DateOfWall, wallSeconds, unixNano.
  rewrite !H.
  destruct (off =? 0) eqn:E.
  - apply Z.eqb_eq in E. subst off. cbn [unixSec nsec].
    unfold Hour, Minute, Second. lia.
  - destruct (_ || _); rewrite ?H; cbn [unixSec nsec];
      unfold Hour, Minute, Second; lia.
Qed.

(** X3: where the offset of the local zone from UTC never changes, the
    timestamp of a generated session lies in the thirty days of 24 hours
    that end at the clock reading: later than thirty days before it, and
    not after it. *)
Theorem generateUserSession_window_fixed_offset
  (loc : Location) (off : Z) (r : Draws) :
  fixedOffset loc off ->
  unixNano (now r) - 30 * 24 * Hour
  < unixNano (Timestamp (generateUserSession loc r))
  <= unixNano (now r).
Proof.
  intros H. unfold generateUserSession. cbn [Timestamp].
  rewrite !unixNano_Add, (unixNano_AddDateDays_fixed loc off _ _ H).
  pose proof (Intn_range (rDays r) 30 eq_refl).
  pose proof (Intn_range (rHours r) 24 eq_refl).
  pose proof (Intn_range (rMinutes r) 60 eq_refl).
  unfold Hour, Minute, Second. lia.
Qed.

Lemma generateUserSession_window_fixed_offset_witness :
  fixedOffset kolkata 19800
  /\ unixNano (now lateNovember) - 30 * 24 * Hour
     < unixNano (Timestamp (generateUserSession kolkata lateNovember))
     <= unixNano (now lateNovember).
Proof.
  assert (H : fixedOffset kolkata 19800) by (intros t; reflexivity).
  split; [exact H|].
  exact (generateUserSession_window_fixed_offset kolkata 19800 lateNovember H).
Defined.

(** ** The loader, further *)

Section LoaderMore.

Variable loc : Location.
Variable source : nat -> Draws.
Variable jsonMarshal : UserSession -> string + error.
Variable upsertResponse : nat -> PartitionKey -> string -> option error.

Local Abbreviation fails' := (recordFails loc source jsonMarshal upsertResponse).
Local Abbreviation failures' := (failuresFrom loc source jsonMarshal upsertResponse).
Local Abbreviation step' := (loadStep loc source jsonMarshal upsertResponse).
Local Abbreviation loop' := (loadLoop loc source jsonMarshal upsertResponse).
Local Abbreviation load' := (loadSampleData loc source jsonMarshal upsertResponse).

(** A failing record leaves one line in the log, another record none. *)
Lemma loadStep_log_length rowCount i c :
  len (filter isLogLine (trace (step' rowCount i c))) =
  if fails' i then 1 else 0.
Proof.
  destruct c as [s e]. unfold loadStep, recordFails.
  rewrite fullKey_keyOfSession.
  destruct (jsonMarshal (nthSession loc source i)) as [doc|err].
  - destruct (upsertResponse i _ doc) as [err|]; run.
    + reflexivity.
    + destruct (_ || _); run; reflexivity.
  - run. reflexivity.
Qed.

Lemma len_app {A} (l1 l2 : list A) : len (l1 ++ l2) = len l1 + len l2.
Proof. unfold len. rewrite length_app. lia. Qed.

Lemma loadLoop_log_length rowCount todo : forall i c,
  len (filter isLogLine (trace (loop' rowCount todo i c))) = failures' i todo.
Proof.
  induction todo as [|todo IH]; intros i c.
  - reflexivity.
  - cbn [loadLoop]. rewrite trace_bind, filter_app, len_app.
    rewrite loadStep_log_length, failuresFrom_S.
    destruct c as [s e]. rewrite loadStep_outcome.
    f_equal. apply IH.
Qed.

Lemma loadSampleData_log_length rowCount :
  len (filter isLogLine (trace (load' rowCount)))
  = failures' 0%nat (Z.to_nat rowCount).
Proof.
  unfold loadSampleData. run.
  destruct (loadLoop_returns loc source jsonMarshal upsertResponse rowCount
              (Z.to_nat rowCount) 0%nat (0, 0)) as [[s e] Hc].
  unfold loadCounts in *. rewrite Hc.
  cbn [app filter isLogLine]. rewrite filter_app, len_app, loadLoop_log_length.
  run. destruct (e >? 0); run; cbn; lia.
Qed.

Lemma loadSampleData_nonpositive rowCount :
  rowCount <= 0 ->
  load' rowCount
  = ([ Stdout ("Generating " +++ GoInt.itoa rowCount +++ " sample records...");
       Stdout (newline +++ "📊 Load Summary:");
       Stdout " Successful inserts: 0" ],
     Returned None).
Proof.
  intros H. unfold loadSampleData, loadCounts.
  replace (Z.to_nat rowCount) with 0%nat by lia.
  reflexivity.
Qed.

End LoaderMore.

(** X4: the log of a run of the loader has exactly one line for each
    failing record, whatever the row count: a record that fails is logged
    once, a record that is written is not logged. *)
Theorem loadSampleData_logs_each_failure
  (loc : Location) (source : nat -> Draws)
  (jsonMarshal : UserSession -> string + error)
  (upsertResponse : nat -> PartitionKey -> string -> option error)
  (rowCount : Z) :
  len (filter isLogLine
         (trace (loadSampleData loc source jsonMarshal upsertResponse rowCount)))
  = failuresFrom loc source jsonMarshal upsertResponse 0 (Z.to_nat rowCount).
Proof. apply loadSampleData_log_length. Qed.

(** X5: on a row count that is zero or negative the loader generates
    nothing, sends nothing to the store, prints a summary of zero
    successful inserts and returns without error. *)
Theorem loadSampleData_nothing_to_load
  (loc : Location) (source : nat -> Draws)
  (jsonMarshal : UserSession -> string + error)
  (upsertResponse : nat -> PartitionKey -> string -> option error)
  (rowCount : Z) :
  rowCount <= 0 ->
  storeRequests
    (trace (loadSampleData loc source jsonMarshal upsertResponse rowCount)) = []
  /\ outcome (loadSampleData loc source jsonMarshal upsertResponse rowCount)
     = Returned None
  /\ In (Stdout " Successful inserts: 0")
        (trace (loadSampleData loc source jsonMarshal upsertResponse rowCount)).
Proof.
  intros H. rewrite (loadSampleData_nonpositive _ _ _ _ rowCount H).
  split; [reflexivity|]. split; [reflexivity|].
  cbn. auto.
Qed.

Lemma loadSampleData_nothing_to_load_witness :
  -5 <= 0
  /\ storeRequests
       (trace (loadSampleData utc sampleSource sampleMarshal refuseThird (-5))) = []
  /\ outcome (loadSampleData utc sampleSource sampleMarshal refuseThird (-5))
     = Returned None.
Proof.
  assert (H : -5 <= 0) by lia.
  destruct (loadSampleData_nothing_to_load utc sampleSource sampleMarshal
              refuseThird (-5) H) as (Hr & Ho & _).
  split; [exact H|]. split; [exact Hr | exact Ho].
Defined.

(** X6: when records fail, the error the loader returns says how many
    failed and how many rows were asked for: "completed with f errors out
    of n total records". *)
Theorem loadSampleData_error_text
  (loc : Location) (source : nat -> Draws)
  (jsonMarshal : UserSession -> string + error)
  (upsertResponse : nat -> PartitionKey -> string -> option error)
  (rowCount : Z) :
  0 <= rowCount <= GoInt.maxInt ->
  0 < failuresFrom loc source jsonMarshal upsertResponse 0 (Z.to_nat rowCount) ->
  exists err,
    outcome (loadSampleData loc source jsonMarshal upsertResponse rowCount)
    = Returned (Some err)
    /\ Error err
       = "completed with "
         +++ GoInt.itoa (failuresFrom loc source jsonMarshal upsertResponse
                           0 (Z.to_nat rowCount))
         +++ " errors out of " +++ GoInt.itoa rowCount +++ " total records".
Proof.
  intros H Hf.
  destruct (loadSampleData_summary loc source jsonMarshal upsertResponse
              rowCount H) as [_ Hout].
  cbv zeta in Hout. rewrite Hout.
  destruct (_ >? 0) eqn:E; [|lia].
  eexists. split; reflexivity.
Qed.

Lemma loadSampleData_error_text_witness :
  exists err,
    outcome (loadSampleData utc sampleSource sampleMarshal refuseThird 10)
    = Returned (Some err)
    /\ Error err = "completed with 3 errors out of 10 total records".
Proof.
  assert (H : 0 <= 10 <= GoInt.maxInt) by (unfold GoInt.maxInt; lia).
  assert (F : 0 < failuresFrom utc sampleSource sampleMarshal refuseThird
                    0 (Z.to_nat 10)) by (vm_compute; reflexivity).
  destruct (loadSampleData_error_text utc sampleSource sampleMarshal refuseThird
              10 H F) as (err & Ho & He).
  exists err. split; [exact Ho|]. rewrite He. vm_compute. reflexivity.
Defined.

(** ** The setup, further *)

(** All the ways through [ensureDatabaseAndContainer]. *)
Ltac setup_cases cdb ndb cct nct db ct :=
  unfold ensureDatabaseAndContainer, ensureContainer, getContainerClient;
  destruct (cdb db) as [edb|] eqn:Edb;
  [destruct (isConflict edb) eqn:Cdb|]; cbn [negb];
  (destruct (ndb db) as [endb|] eqn:Endb);
  (destruct (cct db ct) as [ect|] eqn:Ect;
   [destruct (isConflict ect) eqn:Cct|]); cbn [negb];
  (destruct (nct db ct) as [enct|] eqn:Enct);
  run; cbn [app storeRequests].

(** X7: the setup returns a handle only after both creation requests have
    been sent and each has been answered without error or with a conflict
    (status 409), and after both client handles have been built; the
    handle is that of the container asked for. *)
Theorem ensureDatabaseAndContainer_handle_means_ready
  (createDatabaseResponse newDatabaseError : string -> option error)
  (createContainerResponse newContainerError : string -> string -> option error)
  (databaseName containerName : string) (handle : ContainerClient) :
  outcome (ensureDatabaseAndContainer createDatabaseResponse newDatabaseError
             createContainerResponse newContainerError
             databaseName containerName) = Returned (inl handle) ->
  handle = mkContainerClient databaseName containerName
  /\ createdOrExists (createDatabaseResponse databaseName)
  /\ newDatabaseError databaseName = None
  /\ createdOrExists (createContainerResponse databaseName containerName)
  /\ newContainerError databaseName containerName = None
  /\ storeRequests
       (trace (ensureDatabaseAndContainer createDatabaseResponse newDatabaseError
                 createContainerResponse newContainerError
                 databaseName containerName))
     = [ CreateDatabase databaseName;
         CreateContainer containerName PartitionKeyKindMultiHash 2
           ["/tenantId"; "/userId"; "/sessionId"] 400 ].
Proof.
  setup_cases createDatabaseResponse newDatabaseError createContainerResponse
              newContainerError databaseName containerName;
    intros H; try discriminate H; inversion H; subst;
    repeat split; try (apply isConflict_true; assumption).
Qed.

Lemma ensureDatabaseAndContainer_handle_means_ready_witness :
  createdOrExists (Some alreadyExists)
  /\ storeRequests
       (trace (ensureDatabaseAndContainer
                 (fun _ => Some alreadyExists) (fun _ => None)
                 (fun _ _ => None) (fun _ _ => None)
                 "sampleDB" "UserSessions"))
     = [ CreateDatabase "sampleDB";
         CreateContainer "UserSessions" PartitionKeyKindMultiHash 2
           ["/tenantId"; "/userId"; "/sessionId"] 400 ].
Proof.
  destruct (ensureDatabaseAndContainer_handle_means_ready
              (fun _ => Some alreadyExists) (fun _ => None)
              (fun _ _ => None) (fun _ _ => None)
              "sampleDB" "UserSessions"
              (mkContainerClient "sampleDB" "UserSessions") eq_refl)
    as (_ & Hdb & _ & _ & _ & Hreq).
  split; [exact Hdb | exact Hreq].
Defined.

(** X8: the setup never leaves the process: it always returns, a handle or
    an error.  It asks for the database first, and for the container at
    most once and only after the database. *)
Theorem ensureDatabaseAndContainer_returns
  (createDatabaseResponse newDatabaseError : string -> option error)
  (createContainerResponse newContainerError : string -> string -> option error)
  (databaseName containerName : string) :
  let setup := ensureDatabaseAndContainer createDatabaseResponse newDatabaseError
                 createContainerResponse newContainerError
                 databaseName containerName in
  (exists result, outcome setup = Returned result)
  /\ (storeRequests (trace setup) = [CreateDatabase databaseName]
      \/ storeRequests (trace setup)
         = [ CreateDatabase databaseName;
             CreateContainer containerName PartitionKeyKindMultiHash 2
               ["/tenantId"; "/userId"; "/sessionId"] 400 ]).
Proof.
  cbv zeta.
  setup_cases createDatabaseResponse newDatabaseError createContainerResponse
              newContainerError databaseName containerName;
    (split; [eexists; reflexivity | auto]).
Qed.

(** X9: an error of a client handle is a failure of the setup too.  When
    the handle of the database cannot be built the container is not asked
    for; when the handle of the container cannot be built both creation
    requests have been sent. *)
Theorem ensureDatabaseAndContainer_client_errors
  (createDatabaseResponse newDatabaseError : string -> option error)
  (createContainerResponse newContainerError : string -> string -> option error)
  (databaseName containerName : string) :
  let setup := ensureDatabaseAndContainer createDatabaseResponse newDatabaseError
                 createContainerResponse newContainerError
                 databaseName containerName in
  createdOrExists (createDatabaseResponse databaseName) ->
  (forall err,
      newDatabaseError databaseName = Some err ->
      outcome setup
      = Returned (inr (Errorf "failed to create database client: " err))
      /\ storeRequests (trace setup) = [CreateDatabase databaseName])
  /\ (forall err,
        newDatabaseError databaseName = None ->
        createdOrExists (createContainerResponse databaseName containerName) ->
        newContainerError databaseName containerName = Some err ->
        outcome setup
        = Returned (inr (Errorf "failed to create container client: " err))
        /\ storeRequests (trace setup)
           = [ CreateDatabase databaseName;
               CreateContainer containerName PartitionKeyKindMultiHash 2
                 ["/tenantId"; "/userId"; "/sessionId"] 400 ]).
Proof.
  cbv zeta. intros Hdb. split.
  - intros err Hnd. revert Hdb Hnd.
    setup_cases createDatabaseResponse newDatabaseError createContainerResponse
                newContainerError databaseName containerName;
      intros Hdb Hnd; try discriminate Hnd;
      try (apply isConflict_true in Hdb; congruence);
      inversion Hnd; subst; split; reflexivity.
  - intros err Hnd Hct Hnc. revert Hdb Hnd Hct Hnc.
    setup_cases createDatabaseResponse newDatabaseError createContainerResponse
                newContainerError databaseName containerName;
      intros Hdb Hnd Hct Hnc; try discriminate Hnd; try discriminate Hnc;
      try (apply isConflict_true in Hdb; congruence);
      try (apply isConflict_true in Hct; congruence);
      inversion Hnc; subst; split; reflexivity.
Qed.

Lemma ensureDatabaseAndContainer_client_errors_witness :
  outcome (ensureDatabaseAndContainer
             (fun _ => Some alreadyExists) (fun _ => Some forbidden)
             (fun _ _ => None) (fun _ _ => None) "sampleDB" "UserSessions")
  = Returned (inr (Errorf "failed to create database client: " forbidden))
  /\ storeRequests
       (trace (ensureDatabaseAndContainer
                 (fun _ => Some alreadyExists) (fun _ => Some forbidden)
                 (fun _ _ => None) (fun _ _ => None) "sampleDB" "UserSessions"))
     = [CreateDatabase "sampleDB"].
Proof.
  pose proof (ensureDatabaseAndContainer_client_errors
                (fun _ => Some alreadyExists) (fun _ => Some forbidden)
                (fun _ _ => None) (fun _ _ => None) "sampleDB" "UserSessions") as T.
  cbv zeta in T. destruct (T eq_refl) as [T1 _].
  exact (T1 forbidden eq_refl).
Defined.

(** X10: a failure of the setup wraps the error that caused it, one of the
    four errors the store client gave, so that [errors.As] still finds in
    it the response status of the cause. *)
Theorem ensureDatabaseAndContainer_failure_wraps_cause
  (createDatabaseResponse newDatabaseError : string -> option error)
  (createContainerResponse newContainerError : string -> string -> option error)
  (databaseName containerName : string) (failure : error) :
  outcome (ensureDatabaseAndContainer createDatabaseResponse newDatabaseError
             createContainerResponse newContainerError
             databaseName containerName) = Returned (inr failure) ->
  exists text cause,
    failure = Errorf text cause
    /\ errorsAsResponseError failure = errorsAsResponseError cause
    /\ (createDatabaseResponse databaseName = Some cause
        \/ newDatabaseError databaseName = Some cause
        \/ createContainerResponse databaseName containerName = Some cause
        \/ newContainerError databaseName containerName = Some cause).
Proof.
  setup_cases createDatabaseResponse newDatabaseError createContainerResponse
              newContainerError databaseName containerName;
    intros H; try discriminate H; inversion H; subst;
    eexists _, _; (split; [reflexivity|]); (split; [reflexivity|]); auto.
Qed.

Lemma ensureDatabaseAndContainer_failure_wraps_cause_witness :
  exists text cause,
    Errorf "failed to create container: " forbidden = Errorf text cause
    /\ errorsAsResponseError (Errorf "failed to create container: " forbidden)
       = errorsAsResponseError cause
    /\ (None = Some cause \/ None = Some cause
        \/ Some forbidden = Some cause \/ None = Some cause).
Proof.
  exact (ensureDatabaseAndContainer_failure_wraps_cause
           (fun _ => None) (fun _ => None)
           (fun _ _ => Some forbidden) (fun _ _ => None)
           "sampleDB" "UserSessions"
           (Errorf "failed to create container: " forbidden) eq_refl).
Defined.

(** ** [main] of the loader *)

Section LoaderMainFacts.

Variable flags : Flags.
Variable getenv : string -> string.
Variable newCredentialError : option error.
Variable newClientError : string -> option error.
Variable createDatabaseResponse : string -> option error.
Variable newDatabaseError : string -> option error.
Variable createContainerResponse : string -> string -> option error.
Variable newContainerError : string -> string -> option error.
Variable loc : Location.
Variable source : nat -> Draws.
Variable jsonMarshal : UserSession -> string + error.
Variable upsertResponse : nat -> PartitionKey -> string -> option error.

Local Abbreviation setup :=
  (ensureDatabaseAndContainer createDatabaseResponse newDatabaseError
     createContainerResponse newContainerError
     (databaseFlag flags) (containerFlag flags)).
Local Abbreviation loading :=
  (loadSampleData loc source jsonMarshal upsertResponse (rows flags)).
Local Abbreviation main :=
  (loaderMain flags getenv newCredentialError newClientError
     createDatabaseResponse newDatabaseError createContainerResponse
     newContainerError loc source jsonMarshal upsertResponse).

Lemma endpointOf_cases :
  (endpointOf flags getenv = ret (endpointFlag flags)
   /\ endpointFlag flags <> "")
  \/ (endpointOf flags getenv = ret (getenv "COSMOS_ENDPOINT")
      /\ endpointFlag flags = "" /\ getenv "COSMOS_ENDPOINT" <> "")
  \/ (endpointOf flags getenv
      = logFatal "Please provide Azure Cosmos DB endpoint via -endpoint flag or COSMOS_ENDPOINT environment variable"
      /\ endpointFlag flags = "" /\ getenv "COSMOS_ENDPOINT" = "").
Proof.
  unfold endpointOf.
  destruct (endpointFlag flags =? "")%string eqn:E1.
  - apply String.eqb_eq in E1.
    destruct (getenv "COSMOS_ENDPOINT" =? "")%string eqn:E2.
    + apply String.eqb_eq in E2. right. right. auto.
    + apply String.eqb_neq in E2. right. left. auto.
  - apply String.eqb_neq in E1. left. auto.
Qed.

Lemma setup_total : exists result, outcome setup = Returned result.
Proof.
  setup_cases createDatabaseResponse newDatabaseError createContainerResponse
              newContainerError (databaseFlag flags) (containerFlag flags);
    eexists; reflexivity.
Qed.

Lemma setup_no_upsert : filter isUpsert (storeRequests (trace setup)) = [].
Proof.
  setup_cases createDatabaseResponse newDatabaseError createContainerResponse
              newContainerError (databaseFlag flags) (containerFlag flags);
    reflexivity.
Qed.

Lemma setup_no_success_line : filter isSuccessLine (trace setup) = [].
Proof.
  setup_cases createDatabaseResponse newDatabaseError createContainerResponse
              newContainerError (databaseFlag flags) (containerFlag flags);
    reflexivity.
Qed.

Lemma loadStep_no_success_line rowCount i c :
  filter isSuccessLine
    (trace (loadStep loc source jsonMarshal upsertResponse rowCount i c)) = [].
Proof.
  destruct c as [s e]. unfold loadStep.
  destruct (jsonMarshal (nthSession loc source i)) as [doc|err]; run;
    [|reflexivity].
  destruct (upsertResponse i _ doc) as [err|]; run; [reflexivity|].
  destruct (_ || _); run; reflexivity.
Qed.

Lemma loadLoop_no_success_line rowCount todo : forall i c,
  filter isSuccessLine
    (trace (loadLoop loc source jsonMarshal upsertResponse rowCount todo i c))
  = [].
Proof.
  induction todo as [|todo IH]; intros i c; [reflexivity|].
  cbn [loadLoop]. rewrite trace_bind, filter_app, loadStep_no_success_line.
  destruct c as [s e]. rewrite loadStep_outcome. apply IH.
Qed.

Lemma loading_no_success_line : filter isSuccessLine (trace loading) = [].
Proof.
  unfold loadSampleData. run.
  destruct (loadLoop_returns loc source jsonMarshal upsertResponse (rows flags)
              (Z.to_nat (rows flags)) 0%nat (0, 0)) as [[s e] Hc].
  unfold loadCounts in *. rewrite Hc.
  cbn [app filter isSuccessLine String.prefix].
  rewrite filter_app, loadLoop_no_success_line.
  run. destruct (e >? 0); run; reflexivity.
Qed.

Lemma loading_total : exists result, outcome loading = Returned result.
Proof.
  unfold loadSampleData. run.
  destruct (loadLoop_returns loc source jsonMarshal upsertResponse (rows flags)
              (Z.to_nat (rows flags)) 0%nat (0, 0)) as [[s e] Hc].
  unfold loadCounts in *. rewrite Hc. run.
  destruct (e >? 0); run; eexists; reflexivity.
Qed.

End LoaderMainFacts.

Lemma endpointOf_returned flags getenv url :
  outcome (endpointOf flags getenv) = Returned url ->
  endpointOf flags getenv = ret url.
Proof.
  destruct (endpointOf_cases flags getenv) as [[E _]|[[E _]|[E _]]];
    rewrite E; intros H; inversion H; reflexivity.
Qed.

(** X11: without an endpoint, neither on the command line nor in
    COSMOS_ENDPOINT, the loader logs what is missing and leaves the
    process with status 1, before it prints or sends anything. *)
Theorem loaderMain_missing_endpoint
  (flags : Flags) (getenv : string -> string)
  (newCredentialError : option error) (newClientError : string -> option error)
  (createDatabaseResponse newDatabaseError : string -> option error)
  (createContainerResponse newContainerError : string -> string -> option error)
  (loc : Location) (source : nat -> Draws)
  (jsonMarshal : UserSession -> string + error)
  (upsertResponse : nat -> PartitionKey -> string -> option error) :
  endpointFlag flags = "" ->
  getenv "COSMOS_ENDPOINT" = "" ->
  loaderMain flags getenv newCredentialError newClientError
    createDatabaseResponse newDatabaseError createContainerResponse
    newContainerError loc source jsonMarshal upsertResponse
  = ([LogLine "Please provide Azure Cosmos DB endpoint via -endpoint flag or COSMOS_ENDPOINT environment variable"],
     Exited 1).
Proof.
  intros Hf He. unfold loaderMain, endpointOf. rewrite Hf, He. reflexivity.
Qed.

Lemma loaderMain_missing_endpoint_witness :
  loaderMain defaultFlags noEnv None (fun _ => None)
    (fun _ => None) (fun _ => None) (fun _ _ => None) (fun _ _ => None)
    utc sampleSource sampleMarshal acceptAll
  = ([LogLine "Please provide Azure Cosmos DB endpoint via -endpoint flag or COSMOS_ENDPOINT environment variable"],
     Exited 1).
Proof.
  exact (loaderMain_missing_endpoint defaultFlags noEnv None (fun _ => None)
           (fun _ => None) (fun _ => None) (fun _ _ => None) (fun _ _ => None)
           utc sampleSource sampleMarshal acceptAll eq_refl eq_refl).
Defined.

(** X12: once the endpoint is known, the client is created and the setup
    has given the handle, the exit of the loader tells whether the load
    was complete: with no failing record [main] prints "Successfully
    loaded n records ..." and returns; with a failing record it leaves the
    process with status 1 and does not print that line. *)
Theorem loaderMain_success_iff_no_failure
  (flags : Flags) (getenv : string -> string)
  (newCredentialError : option error) (newClientError : string -> option error)
  (createDatabaseResponse newDatabaseError : string -> option error)
  (createContainerResponse newContainerError : string -> string -> option error)
  (loc : Location) (source : nat -> Draws)
  (jsonMarshal : UserSession -> string + error)
  (upsertResponse : nat -> PartitionKey -> string -> option error)
  (url : string) (handle : ContainerClient) :
  outcome (endpointOf flags getenv) = Returned url ->
  newCredentialError = None ->
  newClientError url = None ->
  outcome (ensureDatabaseAndContainer createDatabaseResponse newDatabaseError
             createContainerResponse newContainerError
             (databaseFlag flags) (containerFlag flags))
  = Returned (inl handle) ->
  0 <= rows flags <= GoInt.maxInt ->
  let failed := failuresFrom loc source jsonMarshal upsertResponse
                  0 (Z.to_nat (rows flags)) in
  let main := loaderMain flags getenv newCredentialError newClientError
                createDatabaseResponse newDatabaseError createContainerResponse
                newContainerError loc source jsonMarshal upsertResponse in
  outcome main = (if failed >? 0 then Exited 1 else Returned tt)
  /\ filter isSuccessLine (trace main)
     = (if failed >? 0 then []
        else [Stdout ("Successfully loaded " +++ GoInt.itoa (rows flags)
                      +++ " records into Azure Cosmos DB")]).
Proof.
  intros Hurl Hcred Hclient Hsetup Hrows failed main. subst main.
  unfold loaderMain. rewrite (endpointOf_returned flags getenv url Hurl).
  rewrite bind_ret_l. cbn [Endpoint DatabaseName ContainerName RowCount].
  unfold createCosmosClient. rewrite Hcred, Hclient.
  destruct (loadSampleData_summary loc source jsonMarshal upsertResponse
              (rows flags) Hrows) as [_ Hload].
  cbv zeta in Hload. fold failed in Hload.
  split.
  - run. rewrite Hsetup. run. rewrite Hload.
    destruct (failed >? 0); run; reflexivity.
  - run. rewrite Hsetup. run. rewrite Hload.
    cbn [app filter isSuccessLine String.prefix].
    rewrite !filter_app, setup_no_success_line, loading_no_success_line.
    destruct (failed >? 0); run; reflexivity.
Qed.

Lemma loaderMain_success_iff_no_failure_witness :
  outcome (loaderMain sampleFlags noEnv None (fun _ => None)
             (fun _ => Some alreadyExists) (fun _ => None)
             (fun _ _ => None) (fun _ _ => None)
             utc sampleSource sampleMarshal acceptAll)
  = Exited 1
  /\ filter isSuccessLine
       (trace (loaderMain sampleFlags noEnv None (fun _ => None)
                 (fun _ => Some alreadyExists) (fun _ => None)
                 (fun _ _ => None) (fun _ _ => None)
                 utc sampleSource sampleMarshal acceptAll))
     = [].
Proof.
  assert (H : 0 <= rows sampleFlags <= GoInt.maxInt)
    by (unfold GoInt.maxInt; cbn; lia).
  exact (loaderMain_success_iff_no_failure sampleFlags noEnv None (fun _ => None)
           (fun _ => Some alreadyExists) (fun _ => None)
           (fun _ _ => None) (fun _ _ => None)
           utc sampleSource sampleMarshal acceptAll
           "https://account.documents.azure.com:443/"
           (mkContainerClient "sampleDB" "UserSessions")
           eq_refl eq_refl eq_refl eq_refl H).
Defined.

Lemma no_upsert_in {l : list StoreRequest} pk item :
  filter isUpsert l = [] -> ~ In (UpsertItem pk item) l.
Proof.
  intros H Hin.
  assert (G : In (UpsertItem pk item) (filter isUpsert l))
    by (apply filter_In; split; [exact Hin | reflexivity]).
  rewrite H in G. exact G.
Qed.

(** X13: the loader sends nothing to the store before it has an endpoint,
    a credential and a client, and it writes no record before the setup
    has returned the handle of the container. *)
Theorem loaderMain_nothing_before_setup
  (flags : Flags) (getenv : string -> string)
  (newCredentialError : option error) (newClientError : string -> option error)
  (createDatabaseResponse newDatabaseError : string -> option error)
  (createContainerResponse newContainerError : string -> string -> option error)
  (loc : Location) (source : nat -> Draws)
  (jsonMarshal : UserSession -> string + error)
  (upsertResponse : nat -> PartitionKey -> string -> option error) :
  let main := loaderMain flags getenv newCredentialError newClientError
                createDatabaseResponse newDatabaseError createContainerResponse
                newContainerError loc source jsonMarshal upsertResponse in
  (forall request,
      In request (storeRequests (trace main)) ->
      newCredentialError = None
      /\ exists url,
          outcome (endpointOf flags getenv) = Returned url
          /\ url <> "" /\ newClientError url = None)
  /\ (forall pk item,
        In (UpsertItem pk item) (storeRequests (trace main)) ->
        exists handle,
          outcome (ensureDatabaseAndContainer createDatabaseResponse
                     newDatabaseError createContainerResponse newContainerError
                     (databaseFlag flags) (containerFlag flags))
          = Returned (inl handle)).
Proof.
  cbv zeta. unfold loaderMain.
  destruct (endpointOf_cases flags getenv)
    as [[E Hne]|[[E [_ Hne]]|[E _]]]; rewrite E.
  3: { split; intros; cbn in *; contradiction. }
  all: rewrite bind_ret_l;
    cbn [Endpoint DatabaseName ContainerName RowCount];
    unfold createCosmosClient;
    (destruct newCredentialError as [err|];
     [split; intros; cbn in *; contradiction|]);
    (destruct (newClientError _) as [err|] eqn:Ecl;
     [split; intros; cbn in *; contradiction|]);
    (split;
     [ intros request _; split; [reflexivity|];
       eexists; split; [reflexivity|]; split; [exact Hne | exact Ecl]
     | intros pk item Hin;
       destruct (setup_total flags createDatabaseResponse newDatabaseError
                   createContainerResponse newContainerError)
         as [[handle|err] Hs];
       [exists handle; exact Hs|];
       exfalso; revert Hin; run; rewrite Hs; run;
       cbn [app storeRequests]; rewrite storeRequests_app;
       cbn [storeRequests]; rewrite app_nil_r;
       apply no_upsert_in; apply setup_no_upsert ]).
Qed.

Lemma loaderMain_nothing_before_setup_witness :
  exists handle,
    outcome (ensureDatabaseAndContainer
               (fun _ => Some alreadyExists) (fun _ => None)
               (fun _ _ => None) (fun _ _ => None)
               (databaseFlag sampleFlags) (containerFlag sampleFlags))
    = Returned (inl handle).
Proof.
  pose proof (loaderMain_nothing_before_setup sampleFlags noEnv None
                (fun _ => None) (fun _ => Some alreadyExists) (fun _ => None)
                (fun _ _ => None) (fun _ _ => None)
                utc sampleSource sampleMarshal acceptAll) as T.
  cbv zeta in T. destruct T as [_ T].
  apply (T (mkPartitionKey ["Global-Corp"; "user-2003"; "session-b08fa8a4"])
           "c0ba6ff6-a622-4b30-bcd3-b92960336970,Global-Corp,user-2003,session-b08fa8a4,login").
  vm_compute. right. right. left. reflexivity.
Defined.

(** ** The pagers, further *)

Section PagerMore.

Variable jsonUnmarshal : string -> QueryResult + error.
Variable request : StoreRequest.
Variable body : QueryItemsResponse -> Prog unit.

Hypothesis body_quiet : forall page, storeRequests (trace (body page)) = [].
Hypothesis body_outcome : forall page,
  outcome (body page) =
  if forallb (decodes jsonUnmarshal) (Items page) then Returned tt else Exited 1.

Lemma forPages_outcome pages :
  outcome (forPages request body pages) =
  if reachesFailure jsonUnmarshal pages then Exited 1 else Returned tt.
Proof.
  induction pages as [r|r rest IH]; cbn [forPages reachesFailure]; run.
  - destruct r as [page|err]; [|reflexivity].
    rewrite body_outcome. destruct (forallb _ _); reflexivity.
  - destruct r as [page|err]; [|reflexivity].
    rewrite outcome_bind, body_outcome.
    destruct (forallb _ _); [exact IH | reflexivity].
Qed.

Lemma forPages_requests_exact pages :
  storeRequests (trace (forPages request body pages)) =
  repeat request (pageCount (upToFailure jsonUnmarshal pages)).
Proof.
  induction pages as [r|r rest IH]; cbn [forPages upToFailure]; run;
    cbn [app storeRequests].
  - destruct r as [page|err]; cbn [pageCount repeat]; f_equal.
    apply body_quiet.
  - destruct r as [page|err]; [|reflexivity].
    rewrite trace_bind, storeRequests_app, body_quiet, body_outcome.
    destruct (forallb _ _); cbn [pageCount repeat app]; f_equal.
    exact IH.
Qed.

End PagerMore.

Section QueriesMore.

Variable store : Container.
Variable jsonUnmarshal : string -> QueryResult + error.

Lemma queryWithFullPartitionKey_run tenantID userID sessionID :
  let request := QueryItemsNextPage fullKeyQuery
                   (mkPartitionKey [tenantID; userID; sessionID])
                   [ mkQueryParameter "@tenantId" tenantID;
                     mkQueryParameter "@userId" userID;
                     mkQueryParameter "@sessionId" sessionID ] in
  let pages := queryItems store fullKeyQuery
                 (mkPartitionKey [tenantID; userID; sessionID])
                 [ mkQueryParameter "@tenantId" tenantID;
                   mkQueryParameter "@userId" userID;
                   mkQueryParameter "@sessionId" sessionID ] in
  outcome (queryWithFullPartitionKey (Some store) jsonUnmarshal
             tenantID userID sessionID)
  = (if reachesFailure jsonUnmarshal pages then Exited 1 else Returned tt)
  /\ storeRequests (trace (queryWithFullPartitionKey (Some store) jsonUnmarshal
                             tenantID userID sessionID))
     = repeat request (pageCount (upToFailure jsonUnmarshal pages)).
Proof.
  cbv zeta. unfold queryWithFullPartitionKey, NewQueryItemsPager.
  rewrite bind_ret_l. cbn [fst snd]. run. cbn [app storeRequests]. split.
  - apply forPages_outcome.
    intros page. apply forItems_outcome. printing_only.
  - apply forPages_requests_exact.
    + intros page. apply forItems_quiet; printing_only.
    + intros page. apply forItems_outcome. printing_only.
Qed.

Lemma queryWithTenantAndUserID_run tenantID userID :
  let request := QueryItemsNextPage tenantUserQuery NewPartitionKey
                   [ mkQueryParameter "@tenantId" tenantID;
                     mkQueryParameter "@userId" userID ] in
  let pages := queryItems store tenantUserQuery NewPartitionKey
                 [ mkQueryParameter "@tenantId" tenantID;
                   mkQueryParameter "@userId" userID ] in
  outcome (queryWithTenantAndUserID (Some store) jsonUnmarshal tenantID userID)
  = (if reachesFailure jsonUnmarshal pages then Exited 1 else Returned tt)
  /\ storeRequests (trace (queryWithTenantAndUserID (Some store) jsonUnmarshal
                             tenantID userID))
     = repeat request (pageCount (upToFailure jsonUnmarshal pages)).
Proof.
  cbv zeta. unfold queryWithTenantAndUserID, NewQueryItemsPager.
  rewrite bind_ret_l. cbn [fst snd]. split.
  - apply forPages_outcome.
    intros page. run. apply forItems_outcome. printing_only.
  - apply forPages_requests_exact.
    + intros page. run. cbn [app storeRequests].
      apply forItems_quiet; printing_only.
    + intros page. run. apply forItems_outcome. printing_only.
Qed.

Lemma queryWithSinglePKParameter_run paramType paramValue :
  paramType = "tenantId" \/ paramType = "userId" \/ paramType = "sessionId" ->
  let request := QueryItemsNextPage (singleFieldQuery paramType) NewPartitionKey
                   [ mkQueryParameter "@param" paramValue ] in
  let pages := queryItems store (singleFieldQuery paramType) NewPartitionKey
                 [ mkQueryParameter "@param" paramValue ] in
  outcome (queryWithSinglePKParameter (Some store) jsonUnmarshal
             paramType paramValue)
  = (if reachesFailure jsonUnmarshal pages then Exited 1 else Returned tt)
  /\ storeRequests (trace (queryWithSinglePKParameter (Some store) jsonUnmarshal
                             paramType paramValue))
     = repeat request (pageCount (upToFailure jsonUnmarshal pages)).
Proof.
  intros H. cbv zeta.
  unfold queryWithSinglePKParameter, NewQueryItemsPager, singleFieldQuery.
  assert (G : negb (paramType =? "tenantId")%string
              && negb (paramType =? "userId")%string
              && negb (paramType =? "sessionId")%string = false)
    by (destruct H as [->|[->| ->]]; reflexivity).
  rewrite G, !bind_ret_l. cbn [fst snd]. split.
  - apply forPages_outcome.
    intros page. run. apply forItems_outcome. printing_only.
  - apply forPages_requests_exact.
    + intros page. run. cbn [app storeRequests].
      apply forItems_quiet; printing_only.
    + intros page. run. apply forItems_outcome. printing_only.
Qed.

End QueriesMore.

(** X14: through a container that is assigned, each of the three queries
    returns when every page comes without error and every item decodes,
    and leaves the process with status 1 as soon as its pager comes to a
    page error or to an item that does not decode.  Through the nil
    container, as the program leaves it, each of them ends in the panic of
    [NewQueryItemsPager], status 2 (the single-field query once its guard
    is passed). *)
Theorem queries_exit_on_first_failure
  (store : Container)
  (jsonUnmarshal : string -> QueryResult + error)
  (tenantID userID sessionID paramType paramValue : string) :
  let status pages :=
    if reachesFailure jsonUnmarshal pages then Exited 1 else Returned tt in
  (outcome (queryWithFullPartitionKey (Some store) jsonUnmarshal
              tenantID userID sessionID)
   = status (queryItems store fullKeyQuery
               (mkPartitionKey [tenantID; userID; sessionID])
               [ mkQueryParameter "@tenantId" tenantID;
                 mkQueryParameter "@userId" userID;
                 mkQueryParameter "@sessionId" sessionID ])
   /\ outcome (queryWithFullPartitionKey None jsonUnmarshal
                 tenantID userID sessionID) = Exited 2)
  /\ (outcome (queryWithTenantAndUserID (Some store) jsonUnmarshal tenantID userID)
      = status (queryItems store tenantUserQuery NewPartitionKey
                  [ mkQueryParameter "@tenantId" tenantID;
                    mkQueryParameter "@userId" userID ])
      /\ outcome (queryWithTenantAndUserID None jsonUnmarshal tenantID userID)
         = Exited 2)
  /\ (paramType = "tenantId" \/ paramType = "userId" \/ paramType = "sessionId" ->
      outcome (queryWithSinglePKParameter (Some store) jsonUnmarshal
                 paramType paramValue)
      = status (queryItems store (singleFieldQuery paramType) NewPartitionKey
                  [ mkQueryParameter "@param" paramValue ])
      /\ outcome (queryWithSinglePKParameter None jsonUnmarshal
                    paramType paramValue) = Exited 2).
Proof.
  cbv zeta. split; [|split].
  - split; [apply queryWithFullPartitionKey_run | reflexivity].
  - split; [apply queryWithTenantAndUserID_run | reflexivity].
  - intros H. split; [apply queryWithSinglePKParameter_run; exact H|].
    rewrite (queryWithSinglePKParameter_nil jsonUnmarshal _ paramValue H).
    reflexivity.
Qed.

Lemma queries_exit_on_first_failure_witness :
  outcome (queryWithSinglePKParameter (Some secondPageFails) sampleUnmarshal
             "userId" "user-42") = Exited 1
  /\ outcome (queryWithSinglePKParameter (Some (onePage ["a"; "b"]))
                sampleUnmarshal "userId" "user-42") = Returned tt
  /\ outcome (queryWithSinglePKParameter container sampleUnmarshal
                "userId" "user-42") = Exited 2.
Proof.
  pose proof (queries_exit_on_first_failure secondPageFails sampleUnmarshal
                "" "" "" "userId" "user-42") as T1.
  pose proof (queries_exit_on_first_failure (onePage ["a"; "b"]) sampleUnmarshal
                "" "" "" "userId" "user-42") as T2.
  cbv zeta in T1, T2.
  destruct T1 as (_ & _ & T1). destruct T2 as (_ & _ & T2).
  destruct (T1 (or_intror (or_introl eq_refl))) as [A C].
  destruct (T2 (or_intror (or_introl eq_refl))) as [B _].
  split; [exact A|]. split; [exact B | exact C].
Defined.

(** X15: through a container that is assigned, each of the three queries
    sends its one request once for every page of the answer up to the
    first failure, and never again after a failure: the number of
    requests is the number of pages up to and including the page where the
    pager fails.  Through the nil container it sends no request. *)
Theorem queries_request_per_page
  (store : Container)
  (jsonUnmarshal : string -> QueryResult + error)
  (tenantID userID sessionID paramType paramValue : string) :
  let requests request pages :=
    repeat request (pageCount (upToFailure jsonUnmarshal pages)) in
  (storeRequests (trace (queryWithFullPartitionKey (Some store) jsonUnmarshal
                           tenantID userID sessionID))
   = requests
       (QueryItemsNextPage fullKeyQuery
          (mkPartitionKey [tenantID; userID; sessionID])
          [ mkQueryParameter "@tenantId" tenantID;
            mkQueryParameter "@userId" userID;
            mkQueryParameter "@sessionId" sessionID ])
       (queryItems store fullKeyQuery
          (mkPartitionKey [tenantID; userID; sessionID])
          [ mkQueryParameter "@tenantId" tenantID;
            mkQueryParameter "@userId" userID;
            mkQueryParameter "@sessionId" sessionID ])
   /\ storeRequests (trace (queryWithFullPartitionKey None jsonUnmarshal
                              tenantID userID sessionID)) = [])
  /\ (storeRequests (trace (queryWithTenantAndUserID (Some store) jsonUnmarshal
                              tenantID userID))
      = requests
          (QueryItemsNextPage tenantUserQuery NewPartitionKey
             [ mkQueryParameter "@tenantId" tenantID;
               mkQueryParameter "@userId" userID ])
          (queryItems store tenantUserQuery NewPartitionKey
             [ mkQueryParameter "@tenantId" tenantID;
               mkQueryParameter "@userId" userID ])
      /\ storeRequests (trace (queryWithTenantAndUserID None jsonUnmarshal
                                 tenantID userID)) = [])
  /\ (paramType = "tenantId" \/ paramType = "userId" \/ paramType = "sessionId" ->
      storeRequests (trace (queryWithSinglePKParameter (Some store) jsonUnmarshal
                              paramType paramValue))
      = requests
          (QueryItemsNextPage (singleFieldQuery paramType) NewPartitionKey
             [ mkQueryParameter "@param" paramValue ])
          (queryItems store (singleFieldQuery paramType) NewPartitionKey
             [ mkQueryParameter "@param" paramValue ])
      /\ storeRequests (trace (queryWithSinglePKParameter None jsonUnmarshal
                                 paramType paramValue)) = []).
Proof.
  cbv zeta. split; [|split].
  - split; [apply queryWithFullPartitionKey_run | reflexivity].
  - split; [apply queryWithTenantAndUserID_run | reflexivity].
  - intros H. split; [apply queryWithSinglePKParameter_run; exact H|].
    rewrite (queryWithSinglePKParameter_nil jsonUnmarshal _ paramValue H).
    reflexivity.
Qed.

Lemma queries_request_per_page_witness :
  storeRequests (trace (queryWithSinglePKParameter (Some secondPageFails)
                          sampleUnmarshal "sessionId" "session-0361ef4c"))
  = repeat (QueryItemsNextPage "SELECT * FROM c WHERE c.sessionId = @param"
              NewPartitionKey
              [ mkQueryParameter "@param" "session-0361ef4c" ])
           2
  /\ storeRequests (trace (queryWithSinglePKParameter container
                             sampleUnmarshal "sessionId" "session-0361ef4c"))
     = [].
Proof.
  pose proof (queries_request_per_page secondPageFails sampleUnmarshal
                "" "" "" "sessionId" "session-0361ef4c") as T.
  cbv zeta in T. destruct T as (_ & _ & T).
  exact (T (or_intror (or_intror eq_refl))).
Defined.

(** X16: whatever field name it is called with and whatever the
    container, the single-field query sends to the store one of three
    query texts only, the one on tenantId, on userId or on sessionId, with
    the empty key and the value as its parameter: no other field name ever
    reaches the text of a query. *)
Theorem queryWithSinglePKParameter_texts
  (global : option Container)
  (jsonUnmarshal : string -> QueryResult + error)
  (paramType paramValue : string) (request : StoreRequest) :
  In request
     (storeRequests (trace (queryWithSinglePKParameter global jsonUnmarshal
                              paramType paramValue))) ->
  exists field,
    (field = "tenantId" \/ field = "userId" \/ field = "sessionId")
    /\ request = QueryItemsNextPage (singleFieldQuery field) NewPartitionKey
                   [ mkQueryParameter "@param" paramValue ].
Proof.
  intros Hin.
  destruct (paramType =? "tenantId")%string eqn:E1;
    [|destruct (paramType =? "userId")%string eqn:E2;
      [|destruct (paramType =? "sessionId")%string eqn:E3]].
  4: { apply String.eqb_neq in E1, E2, E3.
       rewrite (queryWithSinglePKParameter_rejected jsonUnmarshal global
                  paramType paramValue E1 E2 E3) in Hin.
       destruct Hin. }
  all: assert (H : paramType = "tenantId" \/ paramType = "userId"
                   \/ paramType = "sessionId")
         by (rewrite ?String.eqb_eq in *; auto);
       destruct global as [store|];
       [ destruct (queryWithSinglePKParameter_requests store jsonUnmarshal
                     paramType paramValue H) as [k Hk];
         rewrite Hk in Hin; apply repeat_spec in Hin;
         exists paramType; split; [exact H | exact Hin]
       | rewrite (queryWithSinglePKParameter_nil jsonUnmarshal _ paramValue H)
           in Hin;
         destruct Hin ].
Qed.

Lemma queryWithSinglePKParameter_texts_witness :
  exists field,
    (field = "tenantId" \/ field = "userId" \/ field = "sessionId")
    /\ QueryItemsNextPage "SELECT * FROM c WHERE c.userId = @param"
         NewPartitionKey [ mkQueryParameter "@param" "user-42" ]
       = QueryItemsNextPage (singleFieldQuery field) NewPartitionKey
           [ mkQueryParameter "@param" "user-42" ].
Proof.
  apply (queryWithSinglePKParameter_texts (Some (onePage ["a"])) sampleUnmarshal
           "userId" "user-42").
  left. reflexivity.
Defined.

(** ** The point read *)

(** X17: through a container that is assigned, the point read sends its
    one request and then either shows the record, which it does exactly
    when the store returns the item and the item decodes, or leaves the
    process with status 1 without a line on standard output.  Through the
    nil container, as the program leaves it, it ends in the panic of
    [ReadItem], status 2, and neither sends nor prints. *)
Theorem executePointRead_all_or_nothing
  (store : Container)
  (jsonUnmarshal : string -> QueryResult + error)
  (id tenantId userId sessionId : string) :
  let run := executePointRead (Some store) jsonUnmarshal
               id tenantId userId sessionId in
  let found :=
    exists resp queryResult,
      readItem store (mkPartitionKey [tenantId; userId; sessionId]) id = inl resp
      /\ jsonUnmarshal (ItemValue resp) = inl queryResult in
  (outcome run = Returned tt <-> found)
  /\ (outcome run = Returned tt
      \/ outcome run = Exited 1 /\ filter isStdout (trace run) = [])
  /\ executePointRead None jsonUnmarshal id tenantId userId sessionId
     = ([], Exited 2).
Proof.
  cbv zeta. split; [|split; [|reflexivity]].
  all: unfold executePointRead;
    change (AppendString (AppendString (NewPartitionKeyString tenantId) userId)
                         sessionId)
      with (mkPartitionKey [tenantId; userId; sessionId]);
    destruct (readItem store _ id) as [resp|err]; run.
  - destruct (jsonUnmarshal (ItemValue resp)) as [q|err] eqn:E; run.
    + split; [intros _; exists resp, q; auto | reflexivity].
    + split; [discriminate|].
      intros (resp' & q & H1 & H2). inversion H1; subst. congruence.
  - split; [discriminate|].
    intros (resp' & q & H1 & _). discriminate H1.
  - destruct (jsonUnmarshal (ItemValue resp)) as [q|err] eqn:E; run.
    + left; reflexivity.
    + right. split; reflexivity.
  - right. split; reflexivity.
Qed.

(** ** Writing and reading with the same key *)

(** X18: a record the loader has written is addressed by the query program
    with the key it was written under: for a generated record that
    encodes, the key of its upsert is the key of the point read on its id
    and three key fields, and the key scope of every request of the
    full-key query on these fields. *)
Theorem stored_key_is_lookup_key
  (loc : Location) (source : nat -> Draws)
  (jsonMarshal : UserSession -> string + error)
  (upsertResponse : nat -> PartitionKey -> string -> option error)
  (store : Container)
  (jsonUnmarshal : string -> QueryResult + error)
  (rowCount : Z) (i : nat) (item : string) :
  (i < Z.to_nat rowCount)%nat ->
  jsonMarshal (nthSession loc source i) = inl item ->
  let s := nthSession loc source i in
  exists pk,
    In (UpsertItem pk item)
       (storeRequests
          (trace (loadSampleData loc source jsonMarshal upsertResponse rowCount)))
    /\ storeRequests
         (trace (executePointRead (Some store) jsonUnmarshal
                   (ID s) (TenantID s) (UserID s) (SessionID s)))
       = [ReadItem pk (ID s)]
    /\ forall request,
        In request
           (storeRequests
              (trace (queryWithFullPartitionKey (Some store) jsonUnmarshal
                        (TenantID s) (UserID s) (SessionID s)))) ->
        keyScope request = Some pk.
Proof.
  intros Hi Hm s. subst s.
  exists (keyOfSession (nthSession loc source i)). split; [|split].
  - rewrite loadSampleData_requests. apply in_flat_map.
    exists i. split; [apply in_seq; lia|].
    unfold upsertOf. rewrite Hm. left. reflexivity.
  - unfold executePointRead. rewrite fullKey_keyOfSession.
    run. destruct (readItem store _ _) as [resp|err]; run; [|reflexivity].
    destruct (jsonUnmarshal (ItemValue resp)) as [q|err]; run; reflexivity.
  - intros request Hin.
    destruct (queryWithFullPartitionKey_requests store jsonUnmarshal
                (TenantID (nthSession loc source i))
                (UserID (nthSession loc source i))
                (SessionID (nthSession loc source i))) as [k Hk].
    rewrite Hk in Hin. apply repeat_spec in Hin. subst request. reflexivity.
Qed.

Lemma stored_key_is_lookup_key_witness :
  exists pk,
    In (UpsertItem pk
          "c0ba6ff6-a622-4b30-bcd3-b92960336972,MidMarket-Inc,user-117,session-b08fa8a4,view_dashboard")
       (storeRequests
          (trace (loadSampleData utc sampleSource sampleMarshal acceptAll 3)))
    /\ storeRequests
         (trace (executePointRead (Some (onePage [])) sampleUnmarshal
                   (ID (nthSession utc sampleSource 2))
                   (TenantID (nthSession utc sampleSource 2))
                   (UserID (nthSession utc sampleSource 2))
                   (SessionID (nthSession utc sampleSource 2))))
       = [ReadItem pk (ID (nthSession utc sampleSource 2))].
Proof.
  assert (Hi : (2 < Z.to_nat 3)%nat) by (vm_compute; lia).
  destruct (stored_key_is_lookup_key utc sampleSource sampleMarshal acceptAll
              (onePage []) sampleUnmarshal 3 2 _ Hi eq_refl)
    as (pk & H1 & H2 & _).
  exists pk. split; [exact H1 | exact H2].
Defined.

(** ** Start of the two programs *)

(** X19: [init] of the query program returns exactly when the three
    variables COSMOS_DB_ENDPOINT, COSMOS_DB_DATABASE_NAME and
    COSMOS_DB_CONTAINER_NAME are set to something and the credential and
    the client are created without error; otherwise it logs one line and
    leaves the process with status 1.  It sends nothing to the store. *)
Theorem init_requires_environment
  (newCredentialError : option error) (newClientError : string -> option error)
  (getenv : string -> string) :
  let run := init newCredentialError newClientError getenv in
  (outcome run = Returned tt
   <-> getenv "COSMOS_DB_ENDPOINT" <> ""
       /\ getenv "COSMOS_DB_DATABASE_NAME" <> ""
       /\ getenv "COSMOS_DB_CONTAINER_NAME" <> ""
       /\ newCredentialError = None
       /\ newClientError (getenv "COSMOS_DB_ENDPOINT") = None)
  /\ (outcome run = Returned tt /\ trace run = []
      \/ outcome run = Exited 1 /\ exists text, trace run = [LogLine text]).
Proof.
  cbv zeta. unfold init, getClient.
  destruct (getenv "COSMOS_DB_ENDPOINT" =? "")%string eqn:E1.
  { apply String.eqb_eq in E1. split.
    - split; [discriminate | intros (H & _); contradiction].
    - right. split; [reflexivity | eexists; reflexivity]. }
  destruct (getenv "COSMOS_DB_DATABASE_NAME" =? "")%string eqn:E2.
  { apply String.eqb_eq in E2. split.
    - split; [discriminate | intros (_ & H & _); contradiction].
    - right. split; [reflexivity | eexists; reflexivity]. }
  destruct (getenv "COSMOS_DB_CONTAINER_NAME" =? "")%string eqn:E3.
  { apply String.eqb_eq in E3. split.
    - split; [discriminate | intros (_ & _ & H & _); contradiction].
    - right. split; [reflexivity | eexists; reflexivity]. }
  apply String.eqb_neq in E1, E2, E3.
  destruct newCredentialError as [err|].
  { split.
    - split; [discriminate | intros (_ & _ & _ & H & _); discriminate H].
    - right. split; [reflexivity | eexists; reflexivity]. }
  destruct (newClientError (getenv "COSMOS_DB_ENDPOINT")) as [err|] eqn:E4.
  { split.
    - split; [discriminate | intros (_ & _ & _ & _ & H); discriminate H].
    - right. split; [reflexivity | eexists; reflexivity]. }
  split.
  - split; [intros _; repeat split; assumption | reflexivity].
  - left. split; reflexivity.
Qed.

(** X20: the endpoint that [getEndpointFlagorEnv] returns is never empty:
    it is the flag when the flag is given, the environment variable
    otherwise, and with neither the process is left with status 1.
    [main] of the loader chooses its endpoint in the same way. *)
Theorem getEndpointFlagorEnv_never_empty
  (flags : Flags) (flagValue : string) (getenv : string -> string)
  (flagName envVar : string) :
  let run := getEndpointFlagorEnv flagValue getenv flagName envVar in
  (forall value,
      outcome run = Returned value ->
      value <> ""
      /\ (flagValue <> "" -> value = flagValue)
      /\ (flagValue = "" -> value = getenv envVar))
  /\ (outcome run = Exited 1 <-> flagValue = "" /\ getenv envVar = "")
  /\ outcome (endpointOf flags getenv)
     = outcome (getEndpointFlagorEnv (endpointFlag flags) getenv
                  "endpoint" "COSMOS_ENDPOINT").
Proof.
  cbv zeta. unfold getEndpointFlagorEnv, endpointOf. split; [|split].
  - intros value.
    destruct (flagValue =? "")%string eqn:E1; cbn [negb].
    + apply String.eqb_eq in E1.
      destruct (getenv envVar =? "")%string eqn:E2; cbn [negb];
        intros H; inversion H; subst.
      apply String.eqb_neq in E2. repeat split; [exact E2 | contradiction].
    + apply String.eqb_neq in E1. intros H. inversion H; subst.
      repeat split; [exact E1 | contradiction].
  - destruct (flagValue =? "")%string eqn:E1; cbn [negb].
    + apply String.eqb_eq in E1.
      destruct (getenv envVar =? "")%string eqn:E2; cbn [negb].
      * apply String.eqb_eq in E2. split; [auto | reflexivity].
      * apply String.eqb_neq in E2.
        split; [discriminate | intros [_ H]; contradiction].
    + apply String.eqb_neq in E1.
      split; [discriminate | intros [H _]; contradiction].
  - destruct (endpointFlag flags =? "")%string; cbn [negb]; [|reflexivity].
    destruct (getenv "COSMOS_ENDPOINT" =? "")%string; reflexivity.
Qed.

Lemma executePointRead_all_or_nothing_witness :
  outcome (executePointRead (Some oneItem) sampleUnmarshal
             "c0ba6ff6-a622-4b30-bcd3-b92960336976"
             "SmallBiz-LLC" "user-42" "session-0361ef4c")
  = Returned tt
  /\ executePointRead container sampleUnmarshal
       "c0ba6ff6-a622-4b30-bcd3-b92960336976"
       "SmallBiz-LLC" "user-42" "session-0361ef4c"
     = ([], Exited 2).
Proof.
  pose proof (executePointRead_all_or_nothing oneItem sampleUnmarshal
                "c0ba6ff6-a622-4b30-bcd3-b92960336976"
                "SmallBiz-LLC" "user-42" "session-0361ef4c") as T.
  cbv zeta in T. destruct T as ([_ T] & _ & N).
  split; [|exact N].
  apply T. eexists _, _. split; reflexivity.
Defined.

Lemma init_requires_environment_witness :
  outcome (init None (fun _ => None) sampleEnv) = Returned tt.
Proof.
  pose proof (init_requires_environment None (fun _ => None) sampleEnv) as T.
  cbv zeta in T. destruct T as [[_ T] _].
  apply T. repeat split; try discriminate; reflexivity.
Defined.

Lemma getEndpointFlagorEnv_never_empty_witness :
  "https://account.documents.azure.com:443/" <> ""
  /\ ("" <> "" -> "https://account.documents.azure.com:443/" = "")
  /\ ("" = "" ->
      "https://account.documents.azure.com:443/" = sampleEnv "COSMOS_DB_ENDPOINT").
Proof.
  pose proof (getEndpointFlagorEnv_never_empty defaultFlags "" sampleEnv
                "endpoint" "COSMOS_DB_ENDPOINT") as T.
  cbv zeta in T. destruct T as [T _].
  exact (T "https://account.documents.azure.com:443/" eq_refl).
Defined.

(** ** The query program as a whole *)

Lemma init_cases newCredentialError newClientError getenv :
  init newCredentialError newClientError getenv = ([], Returned tt)
  \/ exists text,
      init newCredentialError newClientError getenv = ([LogLine text], Exited 1).
Proof.
  unfold init, getClient.
  destruct (getenv "COSMOS_DB_ENDPOINT" =? "")%string;
    [right; eexists; reflexivity|].
  destruct (getenv "COSMOS_DB_DATABASE_NAME" =? "")%string;
    [right; eexists; reflexivity|].
  destruct (getenv "COSMOS_DB_CONTAINER_NAME" =? "")%string;
    [right; eexists; reflexivity|].
  destruct newCredentialError as [err|]; [right; eexists; reflexivity|].
  destruct (newClientError _) as [err|]; [right; eexists; reflexivity|].
  left. reflexivity.
Qed.

(** X21: the query program never reaches the store.  Its global container
    stays nil, so [main] ends in the panic of the first query (status 2)
    whenever [init] has returned, and otherwise in the exit of [init]
    (status 1): no run of it sends a request or prints a line on standard
    output, and none returns. *)
Theorem queryMain_never_reaches_store
  (getenv : string -> string)
  (newCredentialError : option error)
  (newClientError : string -> option error)
  (jsonUnmarshal : string -> QueryResult + error) :
  let run := queryMain getenv newCredentialError newClientError jsonUnmarshal in
  storeRequests (trace run) = []
  /\ filter isStdout (trace run) = []
  /\ (outcome run = Exited 1 \/ outcome run = Exited 2)
  /\ (outcome (init newCredentialError newClientError getenv) = Returned tt ->
      run = ([], Exited 2)).
Proof.
  cbv zeta. unfold queryMain.
  destruct (init_cases newCredentialError newClientError getenv)
    as [E|[text E]]; rewrite E.
  - repeat split; auto.
  - repeat split; auto. intros H. discriminate H.
Qed.

Lemma queryMain_never_reaches_store_witness :
  queryMain sampleEnv None (fun _ => None) sampleUnmarshal = ([], Exited 2).
Proof.
  pose proof (queryMain_never_reaches_store sampleEnv None (fun _ => None)
                sampleUnmarshal) as T.
  cbv zeta in T. destruct T as (_ & _ & _ & T).
  apply T. reflexivity.
Defined.
